(** * Networking dashboard synchronisation: a shallow embedding

    The class [NetworkingSync] (networking-sync.js) reads an onboarding
    sheet, turns its rows into person records, keeps one record per email,
    and merges the result with the rows already on the dashboard.  This file
    embeds the pure part of that class: [findColumnIndex],
    the row loop of [getOnboardingData], [deduplicateOnboardingData],
    the row loop of [getCurrentNetworkingData], [camelize] and
    [mergeNetworkingData].

    Conventions.
    - Text is ASCII: a JavaScript string is a [string], [toLowerCase] maps
      [A-Z] to [a-z], and white space is TAB, LF, VT, FF, CR and SPACE.
      A statement that fixes which rows are skipped as blank, or what a
      trimmed, lower-cased email is, says so with [asciiSheet] or
      [asciiText].
    - [undefined] is [None]; an index of [-1] is [None].
    - A thrown exception is the result [None] of a function into [option].
    - A [Date] is either an instant in milliseconds or the Invalid Date,
      whose [getTime()] is NaN.  How the engine parses a date string, and
      which calendar year an instant falls in, are parameters.
    - [new Date()] reads a clock; the clock is passed as a function from the
      index of the element being processed to the instant read there. *)

From Stdlib Require Import ZArith Ascii String.
From stdpp Require Import list strings gmap sorting.

Local Open Scope string_scope.
Local Open Scope Z_scope.

(** ** Strings *)

Module Str.

Definition isUpper (c : ascii) : bool :=
  let n := nat_of_ascii c in (65 <=? n)%nat && (n <=? 90)%nat.

Definition isLower (c : ascii) : bool :=
  let n := nat_of_ascii c in (97 <=? n)%nat && (n <=? 122)%nat.

Definition isDigit (c : ascii) : bool :=
  let n := nat_of_ascii c in (48 <=? n)%nat && (n <=? 57)%nat.

(** [\w] of a regular expression. *)
Definition isWord (c : ascii) : bool :=
  isUpper c || isLower c || isDigit c || Ascii.eqb c "_".

(** [\s], and the characters [trim] strips, among the ASCII characters. *)
Definition isSpace (c : ascii) : bool :=
  let n := nat_of_ascii c in ((9 <=? n)%nat && (n <=? 13)%nat) || (n =? 32)%nat.

(** [toLowerCase] and [toUpperCase] on one ASCII character. *)
Definition lowerChar (c : ascii) : ascii :=
  if isUpper c then ascii_of_nat (nat_of_ascii c + 32) else c.

Definition upperChar (c : ascii) : ascii :=
  if isLower c then ascii_of_nat (nat_of_ascii c - 32) else c.

Fixpoint toLowerCase (s : string) : string :=
  match s with
  | EmptyString => EmptyString
  | String c s' => String (lowerChar c) (toLowerCase s')
  end.

Fixpoint trimStart (s : string) : string :=
  match s with
  | EmptyString => EmptyString
  | String c s' => if isSpace c then trimStart s' else s
  end.

Fixpoint trimEnd (s : string) : string :=
  match s with
  | EmptyString => EmptyString
  | String c s' =>
      match trimEnd s' with
      | EmptyString => if isSpace c then EmptyString else String c EmptyString
      | r => String c r
      end
  end.

Definition trim (s : string) : string := trimEnd (trimStart s).

(** [s.includes(sub)]: [sub] occurs in [s] at some offset. *)
Fixpoint includes (s sub : string) : bool :=
  String.prefix sub s ||
  match s with
  | EmptyString => false
  | String _ s' => includes s' sub
  end.

(** A string is falsy exactly when it is empty. *)
Definition nonEmpty (s : string) : bool := negb (String.eqb s "").

Fixpoint removeSpaces (s : string) : string :=
  match s with
  | EmptyString => EmptyString
  | String c s' => if isSpace c then removeSpaces s' else String c (removeSpaces s')
  end.

(** A text that is empty or ends in a character that is not white space. *)
Fixpoint endsClean (t : string) : bool :=
  match t with
  | EmptyString => true
  | String c EmptyString => negb (isSpace c)
  | String _ t' => endsClean t'
  end.

End Str.

(** ** Dates, values and objects *)

Inductive Date :=
| DateAt (t : Z)
| InvalidDate.

(** [d.getTime()]; [None] is NaN. *)
Definition getTime (d : Date) : option Z :=
  match d with
  | DateAt t => Some t
  | InvalidDate => None
  end.

(** [d1 >= d2] on dates: a comparison with NaN is false. *)
Definition dateGe (d1 d2 : Date) : bool :=
  match getTime d1, getTime d2 with
  | Some t1, Some t2 => t2 <=? t1
  | _, _ => false
  end.

Definition validDate (d : Date) : bool :=
  match d with
  | DateAt _ => true
  | InvalidDate => false
  end.

Inductive value :=
| VStr (s : string)
| VNum (n : Z)
| VDate (d : Date).

(** An object is the list of its own properties in insertion order.  (An
    engine lists integer-like names first when it enumerates an object;
    nothing embedded here enumerates one.) *)
Definition obj : Type := list (string * value).

Fixpoint getProp (k : string) (o : obj) : option value :=
  match o with
  | [] => None
  | (k', v) :: o' => if String.eqb k k' then Some v else getProp k o'
  end.

(** [o[k] = v]: an existing property keeps its place, a new one goes last. *)
Fixpoint setProp (k : string) (v : value) (o : obj) : obj :=
  match o with
  | [] => [(k, v)]
  | (k', v') :: o' =>
      if String.eqb k k' then (k', v) :: o' else (k', v') :: setProp k v o'
  end.

Definition truthy (v : option value) : bool :=
  match v with
  | None => false
  | Some (VStr s) => Str.nonEmpty s
  | Some (VNum n) => negb (n =? 0)
  | Some (VDate _) => true
  end.

(** [v || d]. *)
Definition orElse (v : option value) (d : value) : value :=
  match v with
  | Some x => if truthy v then x else d
  | None => d
  end.

(** ** Finding a column *)

(** [arr.findIndex(p)], with [None] for [-1]. *)
Fixpoint findIndex {A : Type} (p : A -> bool) (arr : list A) : option nat :=
  match arr with
  | [] => None
  | x :: rest => if p x then Some 0%nat else S <$> findIndex p rest
  end.

(** The aliases are tried in order; each one scans the headers from the left
    for the first non-empty header whose lower-cased text contains the
    lower-cased alias. *)
Fixpoint findColumnIndex (headers possibleNames : list string) : option nat :=
  match possibleNames with
  | [] => None
  | name :: rest =>
      match findIndex (fun header =>
                         Str.nonEmpty header &&
                         Str.includes (Str.toLowerCase header) (Str.toLowerCase name))
                      headers with
      | Some index => Some index
      | None => findColumnIndex headers rest
      end
  end.

Definition emailIndex (headers : list string) :=
  findColumnIndex headers ["Email"; "email"; "Email Address"].
Definition nameIndex (headers : list string) :=
  findColumnIndex headers ["Name"; "name"; "Full Name"; "Full name"].
Definition companyIndex (headers : list string) :=
  findColumnIndex headers ["Company"; "company"; "Current Company"; "Employer"].
Definition positionIndex (headers : list string) :=
  findColumnIndex headers ["Position"; "position"; "Job Title"; "Role"; "Title"].
Definition locationIndex (headers : list string) :=
  findColumnIndex headers ["Location"; "location"; "City"; "Where are you based?"].
Definition linkedinIndex (headers : list string) :=
  findColumnIndex headers ["LinkedIn"; "linkedin"; "LinkedIn Profile"; "LinkedIn URL"].
Definition githubIndex (headers : list string) :=
  findColumnIndex headers ["GitHub"; "github"; "GitHub Profile"; "GitHub URL"].
Definition graduationIndex (headers : list string) :=
  findColumnIndex headers ["Graduation Year"; "graduationYear"; "Year"; "Graduation"].
Definition statusIndex (headers : list string) :=
  findColumnIndex headers ["Status"; "status"; "Current Status"; "Member Status"].
Definition dateIndex (headers : list string) :=
  findColumnIndex headers ["Timestamp"; "timestamp"; "Submission Date"; "Date"].

Definition personalEmailIndex (headers : list string) :=
  findColumnIndex headers ["Personal_Email"].
Definition phoneIndex (headers : list string) :=
  findColumnIndex headers ["Phone_Number"].
Definition majorIndex (headers : list string) := findColumnIndex headers ["Major"].
Definition minorIndex (headers : list string) := findColumnIndex headers ["Minor"].
Definition collegeIndex (headers : list string) := findColumnIndex headers ["College"].
Definition schoolYearIndex (headers : list string) :=
  findColumnIndex headers ["School_Year"].
Definition portfolioIndex (headers : list string) :=
  findColumnIndex headers ["Portfolio"].
Definition semesterIndex (headers : list string) :=
  findColumnIndex headers ["Semester_Completed"].
Definition durationIndex (headers : list string) :=
  findColumnIndex headers ["Duration"].
Definition companyRatingIndex (headers : list string) :=
  findColumnIndex headers ["Company_Rating"].
Definition roleRatingIndex (headers : list string) :=
  findColumnIndex headers ["Role_Rating"].
Definition jobSearchIndex (headers : list string) :=
  findColumnIndex headers ["Job_Search_Method_1"].
Definition industryIndex (headers : list string) :=
  findColumnIndex headers ["Industry"].
Definition departmentIndex (headers : list string) :=
  findColumnIndex headers ["Department"].
Definition gradYearUpdatedIndex (headers : list string) :=
  findColumnIndex headers ["Grad Year Updated"].

(** ** Person records *)

Inductive Status := current | alumni.

Definition statusText (s : Status) : string :=
  match s with
  | current => "current"
  | alumni => "alumni"
  end.

(** The object literal pushed by [getOnboardingData]. *)
Record Person := {
  email : string;
  name : string;
  personalEmail : string;
  phone : string;
  major : string;
  minor : string;
  college : string;
  schoolYear : string;
  company : string;
  position : string;
  location : string;
  linkedin : string;
  github : string;
  portfolio : string;
  semester : string;
  duration : string;
  companyRating : string;
  roleRating : string;
  jobSearchMethod : string;
  industry : string;
  department : string;
  gradYearUpdated : string;
  graduationYear : string;
  currentStatus : Status;
  submissionDate : Date;
  rowId : Z
}.

(** The same literal seen as an object, for code that reads a person by
    property name. *)
Definition personObj (p : Person) : obj :=
  [ ("email", VStr (email p));
    ("name", VStr (name p));
    ("personalEmail", VStr (personalEmail p));
    ("phone", VStr (phone p));
    ("major", VStr (major p));
    ("minor", VStr (minor p));
    ("college", VStr (college p));
    ("schoolYear", VStr (schoolYear p));
    ("company", VStr (company p));
    ("position", VStr (position p));
    ("location", VStr (location p));
    ("linkedin", VStr (linkedin p));
    ("github", VStr (github p));
    ("portfolio", VStr (portfolio p));
    ("semester", VStr (semester p));
    ("duration", VStr (duration p));
    ("companyRating", VStr (companyRating p));
    ("roleRating", VStr (roleRating p));
    ("jobSearchMethod", VStr (jobSearchMethod p));
    ("industry", VStr (industry p));
    ("department", VStr (department p));
    ("gradYearUpdated", VStr (gradYearUpdated p));
    ("graduationYear", VStr (graduationYear p));
    ("currentStatus", VStr (statusText (currentStatus p)));
    ("submissionDate", VDate (submissionDate p));
    ("rowId", VNum (rowId p)) ].

(** ** parseInt *)

Definition digitValue (radix : Z) (c : ascii) : option Z :=
  let n := Z.of_nat (nat_of_ascii c) in
  let d := if Str.isDigit c then Some (n - 48)
           else if Str.isLower c then Some (n - 87)
           else if Str.isUpper c then Some (n - 55)
           else None in
  match d with
  | Some v => if v <? radix then Some v else None
  | None => None
  end.

(** The longest prefix of digits, read in [radix]; [acc] is [None] until a
    digit has been seen. *)
Fixpoint parseDigits (radix : Z) (acc : option Z) (s : string) : option Z :=
  match s with
  | EmptyString => acc
  | String c s' =>
      match digitValue radix c with
      | Some d => parseDigits radix (Some (radix * default 0 acc + d)) s'
      | None => acc
      end
  end.

(** [parseInt(s)] without a radix; [None] is NaN. *)
Definition parseInt (s : string) : option Z :=
  let s1 := Str.trimStart s in
  let '(negative, s2) :=
    match s1 with
    | String "-" r => (true, r)
    | String "+" r => (false, r)
    | _ => (false, s1)
    end in
  let '(radix, s3) :=
    match s2 with
    | String "0" (String "x" r) => (16, r)
    | String "0" (String "X" r) => (16, r)
    | _ => (10, s2)
    end in
  (fun n => if negative then - n else n) <$> parseDigits radix None s3.

(** ** Reading the onboarding sheet *)

(** [index !== -1 && row[index]]: the cell when the column resolved and the
    cell is there and not empty. *)
Definition filledCell (index : option nat) (row : list string) : option string :=
  match index with
  | Some i =>
      match row !! i with
      | Some c => if Str.nonEmpty c then Some c else None
      | None => None
      end
  | None => None
  end.

(** [index !== -1 ? (row[index]?.trim() || '') : '']. *)
Definition cellText (index : option nat) (row : list string) : string :=
  match index with
  | Some i =>
      match row !! i with
      | Some c => Str.trim c
      | None => ""
      end
  | None => ""
  end.

(** What the JavaScript engine supplies: [new Date(text)], and
    [d.getFullYear()] for the instant [t] in the local time zone. *)
Class Engine := {
  dateParse : string -> Date;
  getFullYear : Z -> Z
}.

Section Onboarding.

Context {engine : Engine}.
(** The instant [new Date()] gives while row [i] is processed. *)
Variable clock : nat -> Z.

Definition rowStatus (headers : list string) (i : nat) (row : list string) : Status :=
  match filledCell (statusIndex headers) row with
  | Some cell =>
      let status := Str.toLowerCase cell in
      if Str.includes status "alumni" then alumni else current
  | None =>
      match filledCell (graduationIndex headers) row with
      | Some cell =>
          let currentYear := getFullYear (clock i) in
          match parseInt cell with
          | Some gradYear => if gradYear <? currentYear then alumni else current
          | None => current
          end
      | None => current
      end
  end.

Definition rowSubmissionDate (headers : list string) (i : nat) (row : list string) : Date :=
  match filledCell (dateIndex headers) row with
  | Some cell => dateParse cell
  | None => DateAt (clock i)
  end.

(** One turn of the loop over [rows[i]]; [None] is [continue]. *)
Definition onboardingRow (headers : list string) (emailIdx i : nat)
    (row : list string) : option Person :=
  match row !! emailIdx with
  | Some cell =>
      if Str.nonEmpty cell && Str.nonEmpty (Str.trim cell) then
        Some {|
          email := Str.toLowerCase (Str.trim cell);
          name := cellText (nameIndex headers) row;
          personalEmail := cellText (personalEmailIndex headers) row;
          phone := cellText (phoneIndex headers) row;
          major := cellText (majorIndex headers) row;
          minor := cellText (minorIndex headers) row;
          college := cellText (collegeIndex headers) row;
          schoolYear := cellText (schoolYearIndex headers) row;
          company := cellText (companyIndex headers) row;
          position := cellText (positionIndex headers) row;
          location := cellText (locationIndex headers) row;
          linkedin := cellText (linkedinIndex headers) row;
          github := cellText (githubIndex headers) row;
          portfolio := cellText (portfolioIndex headers) row;
          semester := cellText (semesterIndex headers) row;
          duration := cellText (durationIndex headers) row;
          companyRating := cellText (companyRatingIndex headers) row;
          roleRating := cellText (roleRatingIndex headers) row;
          jobSearchMethod := cellText (jobSearchIndex headers) row;
          industry := cellText (industryIndex headers) row;
          department := cellText (departmentIndex headers) row;
          gradYearUpdated := cellText (gradYearUpdatedIndex headers) row;
          graduationYear := cellText (graduationIndex headers) row;
          currentStatus := rowStatus headers i row;
          submissionDate := rowSubmissionDate headers i row;
          rowId := Z.of_nat i + 1
        |}
      else None
  | None => None
  end.

(** [for (let i = ...; i < rows.length; i++)], over the rows from [i] on. *)
Fixpoint onboardingRows (headers : list string) (emailIdx i : nat)
    (rows : list (list string)) : list Person :=
  match rows with
  | [] => []
  | row :: rest =>
      match onboardingRow headers emailIdx i row with
      | Some person => person :: onboardingRows headers emailIdx (S i) rest
      | None => onboardingRows headers emailIdx (S i) rest
      end
  end.

(** [rows] is what the sheet returned, header row first.  [None] is the
    error "Email column not found in onboarding data". *)
Definition getOnboardingData (rows : list (list string)) : option (list Person) :=
  match rows with
  | [] => Some []
  | headers :: dataRows =>
      match emailIndex headers with
      | None => None
      | Some emailIdx => Some (onboardingRows headers emailIdx 1 dataRows)
      end
  end.

End Onboarding.

(** ** Deduplication *)

(** [arr.sort(compareFn)]: a stable insertion sort.  A comparator result of
    NaN counts as [+0].  When every date is valid the comparator is a
    consistent order and a stable sort has one possible result, this one;
    with an Invalid Date among the elements the order is the engine's own,
    and the general statements about the order of the output assume valid
    dates. *)
Definition sortOrder (c : option Z) : Z := default 0 c.

Fixpoint sortInsert {A : Type} (compareFn : A -> A -> option Z) (x : A)
    (sorted : list A) : list A :=
  match sorted with
  | [] => [x]
  | y :: rest =>
      if sortOrder (compareFn x y) <=? 0 then x :: y :: rest
      else y :: sortInsert compareFn x rest
  end.

Definition arraySort {A : Type} (compareFn : A -> A -> option Z) (arr : list A) : list A :=
  foldr (sortInsert compareFn) [] arr.

(** [b.submissionDate.getTime() - a.submissionDate.getTime()]. *)
Definition byDateDesc (a b : Person) : option Z :=
  match getTime (submissionDate b), getTime (submissionDate a) with
  | Some tb, Some ta => Some (tb - ta)
  | _, _ => None
  end.

(** A [Map] with string keys: its entries in insertion order. *)
Definition mapHas {V : Type} (k : string) (m : list (string * V)) : bool :=
  existsb (fun e => String.eqb k (fst e)) m.

Fixpoint mapSet {V : Type} (k : string) (v : V) (m : list (string * V)) : list (string * V) :=
  match m with
  | [] => [(k, v)]
  | (k', v') :: m' =>
      if String.eqb k k' then (k', v) :: m' else (k', v') :: mapSet k v m'
  end.

Definition mapValues {V : Type} (m : list (string * V)) : list V := snd <$> m.

Definition keepFirstPerEmail (emailMap : list (string * Person)) (person : Person)
    : list (string * Person) :=
  if mapHas (email person) emailMap then emailMap
  else mapSet (email person) person emailMap.

Definition deduplicateOnboardingData (data : list Person) : list Person :=
  let sortedData := arraySort byDateDesc data in
  let emailMap := fold_left keepFirstPerEmail sortedData [] in
  mapValues emailMap.

(** ** Reading the dashboard sheet *)

Fixpoint camelizeFrom (first prevWord : bool) (s : string) : string :=
  match s with
  | EmptyString => EmptyString
  | String c s' =>
      let matched :=
        if first then Str.isWord c
        else Str.isUpper c || (Str.isWord c && negb prevWord) in
      let c' :=
        if matched then (if first then Str.lowerChar c else Str.upperChar c) else c in
      String c' (camelizeFrom false (Str.isWord c) s')
  end.

Definition camelize (str : string) : string :=
  Str.removeSpaces (camelizeFrom true false str).

(** [obj[this.camelize(header)] = row[index] || '']: the name "__proto__" is
    the accessor of [Object.prototype], whose setter ignores a string, so
    that assignment creates no property. *)
Definition assignable (key : string) : bool := negb (String.eqb key "__proto__").

Fixpoint currentProps (headers : list string) (index : nat) (row : list string)
    (o : obj) : obj :=
  match headers with
  | [] => o
  | header :: rest =>
      let o' :=
        if Str.nonEmpty header && assignable (camelize header)
        then setProp (camelize header) (VStr (default "" (row !! index))) o
        else o in
      currentProps rest (S index) row o'
  end.

Definition currentRow (headers : list string) (i : nat) (row : list string) : obj :=
  setProp "id" (VNum (Z.of_nat i + 1)) (currentProps headers 0 row []).

Fixpoint currentRows (headers : list string) (i : nat) (rows : list (list string))
    : list obj :=
  match rows with
  | [] => []
  | row :: rest => currentRow headers i row :: currentRows headers (S i) rest
  end.

Definition getCurrentNetworkingData (rows : list (list string)) : list obj :=
  match rows with
  | [] => []
  | headers :: dataRows => currentRows headers 1 dataRows
  end.

(** ** Merging *)

(** [person.email?.toLowerCase()].  The outer [None] is the TypeError raised
    when [email] is neither missing nor a string; the inner one is
    [undefined]. *)
Definition lowerEmail (person : obj) : option (option string) :=
  match getProp "email" person with
  | None => Some None
  | Some (VStr s) => Some (Some (Str.toLowerCase s))
  | Some _ => None
  end.

(** [.filter(Boolean)] on what [lowerEmail] gave. *)
Definition keptEmail (e : option string) : option string :=
  match e with
  | Some s => if Str.nonEmpty s then Some s else None
  | None => None
  end.

Definition currentEmailSet (currentData : list obj) : option (gset string) :=
  emails ← mapM lowerEmail currentData;
  Some (list_to_set (omap keptEmail emails)).

Definition newPeople (onboardingData : list Person) (currentData : list obj)
    : option (list Person) :=
  emailSet ← currentEmailSet currentData;
  Some (filter (fun person => email person ∉ emailSet) onboardingData).

Section Merge.

(** The instant [new Date()] gives while element [i] is mapped. *)
Variable clock : nat -> Z.

Definition existingPerson (i : nat) (currentPerson : obj) : option obj :=
  e ← lowerEmail currentPerson;
  Some [ ("email", orElse (VStr <$> e) (VStr ""));
         ("name", orElse (getProp "name" currentPerson) (VStr ""));
         ("company", orElse (getProp "company" currentPerson) (VStr ""));
         ("position", orElse (getProp "position" currentPerson) (VStr ""));
         ("location", orElse (getProp "location" currentPerson) (VStr ""));
         ("linkedin", orElse (getProp "linkedin" currentPerson) (VStr ""));
         ("github", orElse (getProp "github" currentPerson) (VStr ""));
         ("graduationYear", orElse (getProp "graduationYear" currentPerson) (VStr ""));
         ("currentStatus", orElse (getProp "currentStatus" currentPerson) (VStr "current"));
         ("submissionDate", VDate (DateAt (clock i)));
         ("rowId", orElse (getProp "id" currentPerson) (VNum 0)) ].

Fixpoint existingPeopleFrom (i : nat) (currentData : list obj) : option (list obj) :=
  match currentData with
  | [] => Some []
  | currentPerson :: rest =>
      e ← existingPerson i currentPerson;
      es ← existingPeopleFrom (S i) rest;
      Some (e :: es)
  end.

Definition existingPeople (currentData : list obj) : option (list obj) :=
  existingPeopleFrom 0 currentData.

(** The merged list: the rebuilt existing people, then the new people. *)
Definition mergeNetworkingData (onboardingData : list Person) (currentData : list obj)
    : option (list obj) :=
  added ← newPeople onboardingData currentData;
  kept ← existingPeople currentData;
  Some ((kept ++ (personObj <$> added))%list).

End Merge.

(** ** Notions used in the statements *)

(** [a] was submitted at the same instant as [b] or later; false as soon as
    one of the two dates is invalid. *)
Definition newerOrSame (a b : Person) : Prop :=
  dateGe (submissionDate a) (submissionDate b) = true.

Definition hasValidDate (p : Person) : Prop :=
  validDate (submissionDate p) = true.

(** The first record of each email not yet [seen], in the order of [l]. *)
Fixpoint firstPerEmail (seen : list string) (l : list Person) : list Person :=
  match l with
  | [] => []
  | p :: l' =>
      if bool_decide (email p ∈ seen) then firstPerEmail seen l'
      else p :: firstPerEmail (seen ++ [email p])%list l'
  end.

(** [mergeNetworkingData] can read the email of this object: the property
    is missing or a string. *)
Definition emailReadable (person : obj) : Prop := is_Some (lowerEmail person).

(** [e] is the lower-cased email of one of the existing people, and that
    email is not empty. *)
Definition collides (e : string) (currentData : list obj) : bool :=
  existsb (fun person =>
             match getProp "email" person with
             | Some (VStr s) => Str.nonEmpty s && String.eqb (Str.toLowerCase s) e
             | _ => false
             end) currentData.

(** An email as the normalizer writes it: not empty, in lower case. *)
Definition normalizedEmail (e : string) : Prop :=
  e <> "" /\ Str.toLowerCase e = e.

(** The properties [mergeNetworkingData] copies from an existing person. *)
Definition copiedProps : list string :=
  ["name"; "company"; "position"; "location"; "linkedin"; "github"; "graduationYear"].

(** Text made of ASCII characters only (codes 0 to 127).  On such text
    [Str.trim] and [Str.toLowerCase] are [String.prototype.trim] and
    [String.prototype.toLowerCase]: the white space below 128 is TAB, LF, VT,
    FF, CR and SPACE, and the letters with another lower case are A to Z. *)
Definition asciiChar (c : ascii) : bool := (nat_of_ascii c <? 128)%nat.

Fixpoint asciiText (s : string) : bool :=
  match s with
  | EmptyString => true
  | String c s' => asciiChar c && asciiText s'
  end.


(** ** A sample engine for closed examples

    The two ISO dates used in the examples, as every engine parses them
    (midnight UTC), and a text that is not a date.  The calendar year is that
    of the mean Gregorian year, which is exact enough away from new year. *)

Definition sampleDateParse (text : string) : Date :=
  if String.eqb text "2023-01-01" then DateAt 1672531200000
  else if String.eqb text "2024-06-01" then DateAt 1717200000000
  else InvalidDate.

Definition sampleFullYear (t : Z) : Z := 1970 + t / 31556952000.

Definition sampleEngine : Engine :=
  {| dateParse := sampleDateParse; getFullYear := sampleFullYear |}.

(** 2 November 2026, for every reading. *)
Definition sampleClock (i : nat) : Z := 1793577600000.

(** An onboarding sheet with two submissions by one person, and a dashboard
    sheet with one person on it. *)
Definition sampleOnboardingRows : list (list string) :=
  [ ["Timestamp"; "Email"; "Name"; "Graduation Year"];
    ["2023-01-01"; "a@x.com"; "Alice"; "2022"];
    ["2024-06-01"; " A@X.com "; "Alice A."; "2022"] ].

Definition sampleOnboarding : list Person :=
  Eval vm_compute in
    default [] (getOnboardingData (engine := sampleEngine) sampleClock sampleOnboardingRows).

Definition sampleDashboardRows : list (list string) :=
  [ ["Email"; "Name"; "Notes"];
    ["Bob@X.com"; "Bob"; "met at the fair"] ].

Definition sampleDashboard : list obj :=
  Eval vm_compute in getCurrentNetworkingData sampleDashboardRows.

Definition sampleMerged : list obj :=
  Eval vm_compute in
    default [] (mergeNetworkingData sampleClock
                  (deduplicateOnboardingData sampleOnboarding) sampleDashboard).

(** Two submissions by one person; the first has a timestamp that is not a
    date. *)
Definition sampleBadTimestampRows : list (list string) :=
  [ ["Timestamp"; "Email"];
    ["n/a"; "a@x.com"];
    ["2024-06-01"; "a@x.com"] ].

Definition sampleBadTimestamp : list Person :=
  Eval vm_compute in
    default [] (getOnboardingData (engine := sampleEngine) sampleClock sampleBadTimestampRows).

(** Three submissions by one person; the one in the middle has a timestamp
    that is not a date. *)
Definition sampleBadTimestampBetweenRows : list (list string) :=
  [ ["Timestamp"; "Email"];
    ["2023-01-01"; "a@x.com"];
    ["n/a"; "a@x.com"];
    ["2024-06-01"; "a@x.com"] ].

Definition sampleBadTimestampBetween : list Person :=
  Eval vm_compute in
    default [] (getOnboardingData (engine := sampleEngine) sampleClock
                  sampleBadTimestampBetweenRows).

(** The same timestamps, submitted by two and by three people. *)
Definition sampleBadTimestampPeopleRows : list (list string) :=
  [ ["Timestamp"; "Email"];
    ["n/a"; "b@x.com"];
    ["2024-06-01"; "c@x.com"] ].

Definition sampleBadTimestampPeople : list Person :=
  Eval vm_compute in
    default [] (getOnboardingData (engine := sampleEngine) sampleClock
                  sampleBadTimestampPeopleRows).

Definition sampleBadTimestampThreePeopleRows : list (list string) :=
  [ ["Timestamp"; "Email"];
    ["2023-01-01"; "a@x.com"];
    ["n/a"; "b@x.com"];
    ["2024-06-01"; "c@x.com"] ].

Definition sampleBadTimestampThreePeople : list Person :=
  Eval vm_compute in
    default [] (getOnboardingData (engine := sampleEngine) sampleClock
                  sampleBadTimestampThreePeopleRows).

(** ** Appending to the dashboard *)

(** [currentEmailSet.has(v)]: the set holds strings only. *)
Definition setHas (emailSet : gset string) (v : option value) : bool :=
  match v with
  | Some (VStr s) => bool_decide (s ∈ emailSet)
  | _ => false
  end.

(** The people [updateNetworkingDashboard] appends: those of the merged list
    whose email is not in the set of the current emails.  [None] is the
    TypeError of [currentEmailSet]. *)
Definition appendedPeople (mergedData currentData : list obj) : option (list obj) :=
  emailSet ← currentEmailSet currentData;
  Some (filter (fun person => setHas emailSet (getProp "email" person) = false) mergedData).

(** What goes into the cell under [header]; [None] is [undefined].  The
    branches are tried in the order of the source. *)
Definition cellFor (person : obj) (header : string) : option value :=
  let headerLower := Str.toLowerCase header in
  let has := Str.includes headerLower in
  let field k := Some (orElse (getProp k person) (VStr "")) in
  if has "email" && negb (has "personal") then getProp "email" person
  else if has "name" && negb (has "company") then getProp "name" person
  else if has "personal" && has "email" then field "personalEmail"
  else if has "phone" then field "phone"
  else if has "major" then field "major"
  else if has "minor" then field "minor"
  else if has "college" then field "college"
  else if has "school" && has "year" then field "schoolYear"
  else if has "graduation" then field "graduationYear"
  else if has "linkedin" then field "linkedin"
  else if has "portfolio" then field "portfolio"
  else if has "number" && has "position" then field "positionsCount"
  else if has "company" && negb (has "rating") then field "company"
  else if has "job" && has "title" then field "position"
  else if has "semester" then field "semester"
  else if has "duration" then field "duration"
  else if has "company" && has "rating" then field "companyRating"
  else if has "role" && has "rating" then field "roleRating"
  else if has "job" && has "search" then field "jobSearchMethod"
  else if has "industry" then field "industry"
  else Some (VStr "").

(** One row of [newRows]: a cell per header of the existing sheet. *)
Definition buildRow (headers : list string) (person : obj) : list (option value) :=
  cellFor person <$> headers.

(** [newRows], from the rows [existingRows] of the sheet as it is read before
    appending ([headers = existingRows[0] || []]). *)
Definition newRows (existingRows : list (list string)) (people : list obj)
    : list (list (option value)) :=
  buildRow (default [] (head existingRows)) <$> people.

(** ** Statistics *)

(** [currentData.some(current => current.email?.toLowerCase() === e)]; it
    stops at the first match, and [None] is the TypeError of an email that is
    not a string. *)
Fixpoint someSameEmail (e : string) (currentData : list obj) : option bool :=
  match currentData with
  | [] => Some false
  | currentPerson :: rest =>
      le ← lowerEmail currentPerson;
      if bool_decide (le = Some e) then Some true else someSameEmail e rest
  end.

(** The length of [deduplicatedData.filter(person => !currentData.some(...))]. *)
Fixpoint countNewEntries (deduplicatedData : list Person) (currentData : list obj)
    : option Z :=
  match deduplicatedData with
  | [] => Some 0
  | person :: rest =>
      match someSameEmail (email person) currentData with
      | Some found =>
          n ← countNewEntries rest currentData;
          Some (if found then n else n + 1)
      | None => None
      end
  end.

Record SyncStats := {
  totalOnboardingEntries : Z;
  deduplicatedEntries : Z;
  currentEntries : Z;
  finalEntries : Z;
  newEntries : Z;
  updatedEntries : Z
}.

Record PreviewStats := {
  previewTotalOnboardingEntries : Z;
  previewDeduplicatedEntries : Z;
  previewCurrentEntries : Z;
  previewNewEntries : Z;
  previewUpdatedEntries : Z
}.

Section Sync.

Context {engine : Engine}.
(** The clock while the onboarding rows are read, and while the existing
    people are mapped. *)
Variable onboardingClock mergeClock : nat -> Z.

(** What [sync()] computes from the three reads of the sheets: the rows it
    appends and the statistics it reports.  [None] is a thrown error, which
    [sync()] turns into a failure result.  The reads and the write themselves
    are left out. *)
Definition sync (onboardingRows networkingRows existingRows : list (list string))
    : option (list (list (option value)) * SyncStats) :=
  onboardingData ← getOnboardingData onboardingClock onboardingRows;
  let deduplicatedData := deduplicateOnboardingData onboardingData in
  let currentData := getCurrentNetworkingData networkingRows in
  mergedData ← mergeNetworkingData mergeClock deduplicatedData currentData;
  people ← appendedPeople mergedData currentData;
  let rows := newRows existingRows people in
  entries ← countNewEntries deduplicatedData currentData;
  Some (rows,
        {| totalOnboardingEntries := Z.of_nat (length onboardingData);
           deduplicatedEntries := Z.of_nat (length deduplicatedData);
           currentEntries := Z.of_nat (length currentData);
           finalEntries := Z.of_nat (length currentData) + entries;
           newEntries := entries;
           updatedEntries := 0 |}).

(** What [preview()] computes from its two reads. *)
Definition preview (onboardingRows networkingRows : list (list string))
    : option PreviewStats :=
  onboardingData ← getOnboardingData onboardingClock onboardingRows;
  let deduplicatedData := deduplicateOnboardingData onboardingData in
  let currentData := getCurrentNetworkingData networkingRows in
  entries ← countNewEntries deduplicatedData currentData;
  Some {| previewTotalOnboardingEntries := Z.of_nat (length onboardingData);
          previewDeduplicatedEntries := Z.of_nat (length deduplicatedData);
          previewCurrentEntries := Z.of_nat (length currentData);
          previewNewEntries := entries;
          previewUpdatedEntries := Z.of_nat (length deduplicatedData) - entries |}.

End Sync.

(** ** More notions used in the statements *)

(** [header] is not empty and contains [name], letter case aside: the test of
    [findColumnIndex]. *)
Definition headerMatches (name header : string) : bool :=
  Str.nonEmpty header && Str.includes (Str.toLowerCase header) (Str.toLowerCase name).

(** The text fields of a person record. *)
Definition textFields (p : Person) : list string :=
  [ email p; name p; personalEmail p; phone p; major p; minor p; college p;
    schoolYear p; company p; position p; location p; linkedin p; github p;
    portfolio p; semester p; duration p; companyRating p; roleRating p;
    jobSearchMethod p; industry p; department p; gradYearUpdated p;
    graduationYear p ].

(** The email of this object is missing or empty. *)
Definition noEmail (person : obj) : bool :=
  match getProp "email" person with
  | Some (VStr s) => negb (Str.nonEmpty s)
  | Some _ => false
  | None => true
  end.

(** The fields of a person record that [updateNetworkingDashboard] can write
    to the sheet. *)
Definition writtenFields (p : Person) : list string :=
  [ email p; name p; personalEmail p; phone p; major p; minor p; college p;
    schoolYear p; graduationYear p; linkedin p; portfolio p; company p;
    position p; semester p; duration p; companyRating p; roleRating p;
    jobSearchMethod p; industry p ].

(** A built row as the sheet gives it back: every cell is a string, and the
    sheet may leave out empty cells at the end of the row. *)
Definition storedAs (row : list (option value)) (sheetRow : list string) : Prop :=
  (length sheetRow <= length row)%nat /\
  forall j cell, row !! j = Some cell -> cell = Some (VStr (default "" (sheetRow !! j))).

(** The instant of [p]'s submission, when its date is valid. *)
Definition submissionTime (p : Person) : option Z := getTime (submissionDate p).

(** ** More samples *)

(** Two submissions by one person at the same instant. *)
Definition sampleTieRows : list (list string) :=
  [ ["Timestamp"; "Email"; "Name"];
    ["2024-06-01"; "a@x.com"; "First"];
    ["2024-06-01"; "a@x.com"; "Second"] ].

Definition sampleTie : list Person :=
  Eval vm_compute in
    default [] (getOnboardingData (engine := sampleEngine) sampleClock sampleTieRows).

(** A dashboard with Bob and with a row that has no email. *)
Definition sampleTwoRowDashboardRows : list (list string) :=
  [ ["Email"; "Name"; "Notes"];
    ["bob@x.com"; "Bob"];
    [""; "Carol"; "no email yet"] ].

Definition sampleTwoRowDashboard : list obj :=
  Eval vm_compute in getCurrentNetworkingData sampleTwoRowDashboardRows.

(** A run of [sync] on the sample onboarding sheet and that dashboard. *)
Definition sampleSyncRows : list (list (option value)) :=
  Eval vm_compute in
    match sync (engine := sampleEngine) sampleClock sampleClock sampleOnboardingRows
            sampleTwoRowDashboardRows sampleTwoRowDashboardRows with
    | Some (rows, _) => rows
    | None => []
    end.

Definition sampleSyncStats : SyncStats :=
  Eval vm_compute in
    match sync (engine := sampleEngine) sampleClock sampleClock sampleOnboardingRows
            sampleTwoRowDashboardRows sampleTwoRowDashboardRows with
    | Some (_, stats) => stats
    | None => {| totalOnboardingEntries := 0; deduplicatedEntries := 0;
                 currentEntries := 0; finalEntries := 0; newEntries := 0;
                 updatedEntries := 0 |}
    end.

(** The rows of that run as the sheet stores them. *)
Definition sampleStoredRows : list (list string) :=
  [ [""; "Carol"];
    ["a@x.com"; "Alice A."] ].

Definition samplePreviewStats : PreviewStats :=
  Eval vm_compute in
    match preview (engine := sampleEngine) sampleClock sampleOnboardingRows
            sampleTwoRowDashboardRows with
    | Some stats => stats
    | None => {| previewTotalOnboardingEntries := 0; previewDeduplicatedEntries := 0;
                 previewCurrentEntries := 0; previewNewEntries := 0;
                 previewUpdatedEntries := 0 |}
    end.

(** * Properties *)

(** ** Facts about strings *)

Module StrFacts.
Import Str.

Lemma lowerChar_idem c : lowerChar (lowerChar c) = lowerChar c.
Proof. destruct c as [[] [] [] [] [] [] [] []]; reflexivity. Qed.

Lemma isSpace_lowerChar c : isSpace (lowerChar c) = isSpace c.
Proof. destruct c as [[] [] [] [] [] [] [] []]; reflexivity. Qed.

Lemma toLowerCase_idem s : toLowerCase (toLowerCase s) = toLowerCase s.
Proof. induction s as [|c s IH]; simpl; [done|]. by rewrite lowerChar_idem, IH. Qed.

Lemma toLowerCase_empty s : toLowerCase s = "" <-> s = "".
Proof. destruct s; simpl; split; congruence. Qed.

Lemma nonEmpty_true s : nonEmpty s = true <-> s <> "".
Proof.
  unfold nonEmpty. rewrite negb_true_iff.
  destruct (String.eqb_spec s ""); split; congruence.
Qed.

Lemma nonEmpty_false s : nonEmpty s = false <-> s = "".
Proof.
  unfold nonEmpty. rewrite negb_false_iff. apply String.eqb_eq.
Qed.

Lemma nonEmpty_toLowerCase s : nonEmpty (toLowerCase s) = nonEmpty s.
Proof. by destruct s. Qed.

Lemma toLowerCase_trimStart s : toLowerCase (trimStart s) = trimStart (toLowerCase s).
Proof.
  induction s as [|c s IH]; simpl; [done|].
  rewrite isSpace_lowerChar. by destruct (isSpace c).
Qed.

Lemma toLowerCase_trimEnd s : toLowerCase (trimEnd s) = trimEnd (toLowerCase s).
Proof.
  induction s as [|c s IH]; simpl; [done|].
  rewrite <- IH, isSpace_lowerChar.
  destruct (trimEnd s); simpl; [by destruct (isSpace c)|done].
Qed.

Lemma toLowerCase_trim s : toLowerCase (trim s) = trim (toLowerCase s).
Proof. unfold trim. by rewrite toLowerCase_trimEnd, toLowerCase_trimStart. Qed.

(** [trimEnd] either empties the string or keeps its first character. *)
Lemma trimEnd_cons c s :
  trimEnd (String c s) = "" \/ trimEnd (String c s) = String c (trimEnd s).
Proof.
  simpl. destruct (trimEnd s); [|by right].
  destruct (isSpace c); [by left|by right].
Qed.

Lemma trimEnd_cons_empty c s :
  trimEnd (String c s) = "" -> isSpace c = true /\ trimEnd s = "".
Proof.
  simpl. destruct (trimEnd s); [|done]. by destruct (isSpace c).
Qed.

Lemma endsClean_tail c t : endsClean (String c t) = true -> endsClean t = true.
Proof. destruct t; [done|]. done. Qed.

Lemma prefix_empty_r t : String.prefix t "" = true -> t = "".
Proof. by destruct t. Qed.

Lemma prefix_trimEnd t s :
  endsClean t = true -> String.prefix t (trimEnd s) = String.prefix t s.
Proof.
  revert t. induction s as [|c s IH]; intros t Ht; [done|].
  destruct t as [|d t]; [by destruct (trimEnd (String c s))|].
  pose proof (IH t (endsClean_tail _ _ Ht)) as IHt.
  destruct (trimEnd_cons c s) as [E|E]; rewrite E.
  - apply trimEnd_cons_empty in E as [Hc Hs]. rewrite Hs in IHt.
    simpl. destruct (ascii_dec d c) as [->|]; [|done].
    destruct (String.prefix t s) eqn:Hp; [|done].
    apply prefix_empty_r in IHt as ->.
    simpl in Ht. by rewrite Hc in Ht.
  - simpl. by rewrite IHt.
Qed.

Lemma includes_trimEnd t s :
  t <> "" -> endsClean t = true -> includes (trimEnd s) t = includes s t.
Proof.
  intros Hne Ht. induction s as [|c s IH]; [done|].
  cbn [includes]. rewrite <- IH, <- (prefix_trimEnd t (String c s) Ht).
  destruct (trimEnd_cons c s) as [E|E]; rewrite E.
  - apply trimEnd_cons_empty in E as [_ ->]. by destruct t.
  - done.
Qed.

Lemma includes_trimStart d t s :
  isSpace d = false -> includes (trimStart s) (String d t) = includes s (String d t).
Proof.
  intros Hd. induction s as [|c s IH]; [done|].
  simpl trimStart. destruct (isSpace c) eqn:Hc; [|done].
  rewrite IH. cbn [includes String.prefix].
  destruct (ascii_dec d c) as [->|]; [congruence|done].
Qed.

Lemma includes_trim d t s :
  isSpace d = false -> endsClean (String d t) = true ->
  includes (trim s) (String d t) = includes s (String d t).
Proof.
  intros Hd Ht. unfold trim.
  rewrite includes_trimEnd by done. by apply includes_trimStart.
Qed.

(** Trimming twice is trimming once. *)
Lemma trimEnd_idem s : trimEnd (trimEnd s) = trimEnd s.
Proof.
  induction s as [|c s IH]; [done|].
  destruct (trimEnd_cons c s) as [E|E]; rewrite E; [done|].
  simpl. rewrite IH.
  destruct (trimEnd s) eqn:Hs; [|done].
  simpl in E. rewrite Hs in E. by destruct (isSpace c).
Qed.

Lemma trimStart_clean c s :
  isSpace c = false -> trimStart (String c s) = String c s.
Proof. intros H. simpl. by rewrite H. Qed.

Lemma trimStart_head s :
  trimStart s = "" \/ exists c r, trimStart s = String c r /\ isSpace c = false.
Proof.
  induction s as [|c s IH]; [by left|].
  simpl. destruct (isSpace c) eqn:Hc; [done|]. right. eauto.
Qed.

Lemma trim_idem s : trim (trim s) = trim s.
Proof.
  unfold trim. destruct (trimStart_head s) as [->|(c & r & -> & Hc)]; [done|].
  destruct (trimEnd_cons c r) as [E|E].
  - apply trimEnd_cons_empty in E as [E _]. congruence.
  - rewrite E, trimStart_clean by done. rewrite <- E. apply trimEnd_idem.
Qed.

End StrFacts.

(** ** The schema mapper *)

(** C8 (as stated, refuted).  With the headers "Company Rating" and
    "Role Rating" the mapper does not resolve the company rating to position
    0: the only alias of that field is "Company_Rating", which neither
    header contains. *)
Lemma rating_headers_with_spaces_unresolved :
  ~ (companyRatingIndex ["Company Rating"; "Role Rating"] = Some 0%nat /\
     roleRatingIndex ["Company Rating"; "Role Rating"] = Some 1%nat).
Proof. vm_compute. intros [? _]. discriminate. Qed.

(** C8 (amended).  The rating fields are found under the underscore
    spellings of their aliases: for the headers "Company_Rating" and
    "Role_Rating" the company rating resolves to position 0 and the role
    rating to position 1, neither to the other's column.  For the headers
    "Company Rating" and "Role Rating" both fields are absent. *)
Theorem rating_columns_resolution :
  companyRatingIndex ["Company_Rating"; "Role_Rating"] = Some 0%nat /\
  roleRatingIndex ["Company_Rating"; "Role_Rating"] = Some 1%nat /\
  companyRatingIndex ["Company Rating"; "Role Rating"] = None /\
  roleRatingIndex ["Company Rating"; "Role Rating"] = None.
Proof. vm_compute. auto. Qed.

(** ** The record normalizer *)

Section NormalizerFacts.

Context {engine : Engine}.
Variable clock : nat -> Z.

Lemma onboardingRow_Some headers emailIdx i row p :
  onboardingRow clock headers emailIdx i row = Some p ->
  exists cell, row !! emailIdx = Some cell /\ Str.trim cell <> "" /\
    email p = Str.toLowerCase (Str.trim cell) /\
    rowId p = Z.of_nat i + 1 /\
    currentStatus p = rowStatus clock headers i row /\
    submissionDate p = rowSubmissionDate clock headers i row.
Proof.
  unfold onboardingRow. destruct (row !! emailIdx) as [cell|]; [|done].
  destruct (Str.nonEmpty cell && Str.nonEmpty (Str.trim cell)) eqn:E; [|done].
  intros [= <-]. exists cell. simpl.
  apply andb_true_iff in E as [_ E]. by apply StrFacts.nonEmpty_true in E.
Qed.


(** The loop yields, in order, what its turns yield. *)
Lemma onboardingRows_elem headers emailIdx i rows p :
  p ∈ onboardingRows clock headers emailIdx i rows <->
  exists k row, rows !! k = Some row /\
    onboardingRow clock headers emailIdx (i + k) row = Some p.
Proof.
  revert i. induction rows as [|row rows IH]; intros i; simpl.
  - split; [by intros ?%elem_of_nil|]. by intros (k & r & ? & _).
  - assert (p ∈ onboardingRows clock headers emailIdx (S i) rows <->
            exists k row0, (row :: rows) !! S k = Some row0 /\
              onboardingRow clock headers emailIdx (i + S k) row0 = Some p) as IH'.
    { rewrite IH. by setoid_rewrite Nat.add_succ_r. }
    destruct (onboardingRow clock headers emailIdx i row) as [q|] eqn:E.
    + rewrite elem_of_cons, IH'. split.
      * intros [->|(k & r & ? & ?)]; [|by exists (S k), r].
        exists 0%nat, row. by rewrite Nat.add_0_r.
      * intros ([|k] & r & Hk & Hr).
        -- left. simpl in Hk. injection Hk as <-.
           rewrite Nat.add_0_r in Hr. congruence.
        -- right. eauto.
    + rewrite IH'. split.
      * intros (k & r & ? & ?). by exists (S k), r.
      * intros ([|k] & r & Hk & Hr); [|eauto].
        simpl in Hk. injection Hk as <-.
        rewrite Nat.add_0_r in Hr. congruence.
Qed.


(** The status column, when it resolved and the row has text in it,
    decides alone. *)
Lemma rowStatus_status_cell headers i row j cell :
  statusIndex headers = Some j -> row !! j = Some cell -> cell <> "" ->
  rowStatus clock headers i row =
    if Str.includes (Str.toLowerCase cell) "alumni" then alumni else current.
Proof.
  intros Hj Hc Hne. unfold rowStatus, filledCell. rewrite Hj, Hc.
  by apply StrFacts.nonEmpty_true in Hne as ->.
Qed.

(** C6 (amended).  For a data row whose status column resolved and whose
    status cell is there and not empty, the record is [alumni] when the
    trimmed, lower-cased cell contains "alumni" and [current] otherwise,
    whatever the graduation-year cell holds.  (A row whose status cell is
    missing or empty falls through to the graduation-year rule.) *)
Theorem status_cell_decides headers emailIdx i row p j cell :
  onboardingRow clock headers emailIdx i row = Some p ->
  statusIndex headers = Some j -> row !! j = Some cell -> cell <> "" ->
  currentStatus p =
    if Str.includes (Str.toLowerCase (Str.trim cell)) "alumni" then alumni else current.
Proof.
  intros Hp Hj Hc Hne.
  apply onboardingRow_Some in Hp as (_ & _ & _ & _ & _ & -> & _).
  rewrite (rowStatus_status_cell headers i row j cell Hj Hc Hne).
  by rewrite StrFacts.toLowerCase_trim, StrFacts.includes_trim.
Qed.

(** The submission date, case by case. *)
Lemma rowSubmissionDate_cases headers i row :
  (forall j cell, dateIndex headers = Some j -> row !! j = Some cell ->
     cell <> "" -> rowSubmissionDate clock headers i row = dateParse cell) /\
  (dateIndex headers = None ->
     rowSubmissionDate clock headers i row = DateAt (clock i)) /\
  (forall j, dateIndex headers = Some j -> row !! j = None ->
     rowSubmissionDate clock headers i row = DateAt (clock i)) /\
  (forall j, dateIndex headers = Some j -> row !! j = Some "" ->
     rowSubmissionDate clock headers i row = DateAt (clock i)).
Proof.
  unfold rowSubmissionDate, filledCell. repeat split.
  - intros j cell -> -> Hne. by apply StrFacts.nonEmpty_true in Hne as ->.
  - by intros ->.
  - by intros j -> ->.
  - by intros j -> ->.
Qed.

End NormalizerFacts.

(** ** The deduplicator *)

Section SortFacts.

Context {A : Type} (compareFn : A -> A -> option Z).

Lemma sortInsert_perm x l : sortInsert compareFn x l ≡ₚ x :: l.
Proof.
  induction l as [|y l IH]; simpl; [done|].
  destruct (sortOrder (compareFn x y) <=? 0); [done|].
  rewrite IH. apply perm_swap.
Qed.

Lemma arraySort_perm l : arraySort compareFn l ≡ₚ l.
Proof.
  induction l as [|x l IH]; simpl; [done|].
  rewrite sortInsert_perm. by f_equiv.
Qed.

End SortFacts.

Lemma newerOrSame_times a b ta tb :
  submissionDate a = DateAt ta -> submissionDate b = DateAt tb ->
  newerOrSame a b <-> tb <= ta.
Proof. unfold newerOrSame, dateGe. intros -> ->. simpl. apply Z.leb_le. Qed.

Lemma hasValidDate_time p : hasValidDate p -> exists t, submissionDate p = DateAt t.
Proof. unfold hasValidDate. destruct (submissionDate p); [eauto|done]. Qed.

Lemma newerOrSame_refl p : hasValidDate p -> newerOrSame p p.
Proof.
  intros [t Ht]%hasValidDate_time. by apply (newerOrSame_times p p t t).
Qed.

Lemma newerOrSame_trans a b c : newerOrSame a b -> newerOrSame b c -> newerOrSame a c.
Proof.
  unfold newerOrSame, dateGe.
  destruct (submissionDate a), (submissionDate b), (submissionDate c); simpl; try done.
  rewrite !Z.leb_le. lia.
Qed.

Lemma sortInsert_byDate_sorted x l :
  hasValidDate x -> Forall hasValidDate l ->
  StronglySorted newerOrSame l ->
  StronglySorted newerOrSame (sortInsert byDateDesc x l).
Proof.
  intros [tx Hx]%hasValidDate_time Hv Hs.
  induction Hs as [|y l Hs IH Hy]; simpl.
  - repeat constructor.
  - apply Forall_cons in Hv as [[ty Hty]%hasValidDate_time Hv].
    unfold byDateDesc. rewrite Hx, Hty. simpl.
    destruct (Z.leb_spec (ty - tx) 0) as [Hle|Hgt].
    + assert (newerOrSame x y) as Hxy.
      { apply (newerOrSame_times x y tx ty); [done..|lia]. }
      constructor; [by constructor|].
      constructor; [done|].
      eapply Forall_impl; [exact Hy|]. intros z Hz. by eapply newerOrSame_trans.
    + constructor; [by apply IH|].
      rewrite sortInsert_perm. constructor; [|done].
      apply (newerOrSame_times y x ty tx); [done..|lia].
  Qed.

Lemma arraySort_byDate_sorted l :
  Forall hasValidDate l -> StronglySorted newerOrSame (arraySort byDateDesc l).
Proof.
  induction 1 as [|x l Hx Hl IH]; simpl; [constructor|].
  apply sortInsert_byDate_sorted; [done| |done].
  by rewrite arraySort_perm.
Qed.

(** The map, as the loop uses it. *)
Lemma mapHas_keys {V : Type} k (m : list (string * V)) :
  mapHas k m = true <-> k ∈ m.*1.
Proof.
  unfold mapHas. induction m as [|[k' v] m IH]; simpl.
  - split; [done|by intros ?%elem_of_nil].
  - rewrite orb_true_iff, IH, elem_of_cons, String.eqb_eq. done.
Qed.

Lemma mapSet_fresh {V : Type} k (v : V) (m : list (string * V)) :
  mapHas k m = false -> mapSet k v m = (m ++ [(k, v)])%list.
Proof.
  unfold mapHas. induction m as [|[k' v'] m IH]; simpl; [done|].
  intros [-> Hm]%orb_false_iff. by rewrite IH.
Qed.

(** The loop over the sorted records keeps the first record of each email. *)
Lemma fold_keepFirstPerEmail l m :
  mapValues (fold_left keepFirstPerEmail l m) =
  (mapValues m ++ firstPerEmail (m.*1) l)%list.
Proof.
  revert m. induction l as [|p l IH]; intros m; simpl.
  - by rewrite app_nil_r.
  - rewrite IH. unfold keepFirstPerEmail.
    destruct (mapHas (email p) m) eqn:E.
    + apply mapHas_keys in E. by rewrite bool_decide_eq_true_2.
    + rewrite mapSet_fresh by done.
      assert (email p ∉ m.*1) as Hn.
      { intros Hin%mapHas_keys. congruence. }
      rewrite bool_decide_eq_false_2 by done.
      unfold mapValues. rewrite !fmap_app. simpl. by rewrite <- app_assoc.
Qed.

Lemma deduplicate_firstPerEmail data :
  deduplicateOnboardingData data = firstPerEmail [] (arraySort byDateDesc data).
Proof. unfold deduplicateOnboardingData. by rewrite fold_keepFirstPerEmail. Qed.

Lemma firstPerEmail_elem seen l q :
  q ∈ firstPerEmail seen l -> q ∈ l /\ email q ∉ seen.
Proof.
  revert seen. induction l as [|p l IH]; intros seen; simpl.
  - by intros ?%elem_of_nil.
  - case_bool_decide as E.
    + intros [? ?]%IH. split; [by right|done].
    + intros [->|[? Hn]%IH]%elem_of_cons; [split; [by left|done]|].
      split; [by right|]. intros ?. apply Hn, elem_of_app. by left.
Qed.

Lemma firstPerEmail_NoDup seen l : NoDup (email <$> firstPerEmail seen l).
Proof.
  revert seen. induction l as [|p l IH]; intros seen; simpl; [constructor|].
  case_bool_decide as E; [done|].
  rewrite fmap_cons. constructor; [|done].
  intros (q & Hq & [_ Hn]%firstPerEmail_elem)%list_elem_of_fmap.
  apply Hn, elem_of_app. right. rewrite Hq. by left.
Qed.

Lemma firstPerEmail_covers seen l p :
  p ∈ l -> email p ∉ seen ->
  exists q, q ∈ firstPerEmail seen l /\ email q = email p.
Proof.
  revert seen. induction l as [|x l IH]; intros seen; simpl.
  - by intros ?%elem_of_nil.
  - intros [->|Hp]%elem_of_cons Hn.
    + rewrite bool_decide_eq_false_2 by done. exists x. split; [by left|done].
    + case_bool_decide as E; [by apply IH|].
      destruct (decide (email p = email x)) as [Heq|Hne].
      * exists x. split; [by left|done].
      * destruct (IH (seen ++ [email x])%list Hp) as (q & Hq & Hqe).
        { intros [?|?%list_elem_of_singleton]%elem_of_app; done. }
        exists q. split; [by right|done].
Qed.

Section FirstWins.

Variable R : Person -> Person -> Prop.

Lemma firstPerEmail_first_wins seen l p q :
  StronglySorted R l -> Forall (fun x => R x x) l ->
  p ∈ l -> q ∈ firstPerEmail seen l -> email q = email p -> R q p.
Proof.
  intros Hs. revert seen. induction Hs as [|x l Hs IH Hx]; intros seen Hr; simpl.
  - by intros ?%elem_of_nil.
  - apply Forall_cons in Hr as [Hxx Hr].
    intros Hp Hq He. case_bool_decide as E.
    + apply elem_of_cons in Hp as [->|Hp]; [|by eapply IH].
      apply firstPerEmail_elem in Hq as [_ Hn]. by rewrite He in Hn.
    + apply elem_of_cons in Hq as [->|Hq].
      * apply elem_of_cons in Hp as [->|Hp]; [done|].
        by eapply Forall_forall in Hx.
      * apply elem_of_cons in Hp as [->|Hp]; [|by eapply IH].
        apply firstPerEmail_elem in Hq as [_ Hn].
        exfalso. apply Hn, elem_of_app. right. rewrite He. by left.
Qed.

Lemma firstPerEmail_sorted seen l :
  StronglySorted R l -> StronglySorted R (firstPerEmail seen l).
Proof.
  intros Hs. revert seen. induction Hs as [|x l Hs IH Hx]; intros seen; simpl.
  - constructor.
  - case_bool_decide as E; [done|].
    constructor; [done|].
    apply Forall_forall. intros q [Hq _]%firstPerEmail_elem.
    by eapply Forall_forall in Hx.
Qed.

End FirstWins.

(** C2.  Whatever records come in, no two records that come out of the
    deduplicator have the same email. *)
Theorem deduplicate_unique_emails data :
  NoDup (email <$> deduplicateOnboardingData data).
Proof. rewrite deduplicate_firstPerEmail. apply firstPerEmail_NoDup. Qed.

(** Every record that comes out came in, and every email that came in comes
    out. *)
Lemma deduplicate_subset data q :
  q ∈ deduplicateOnboardingData data -> q ∈ data.
Proof.
  rewrite deduplicate_firstPerEmail. intros [Hq _]%firstPerEmail_elem.
  by rewrite arraySort_perm in Hq.
Qed.

Lemma deduplicate_covers data p :
  p ∈ data -> exists q, q ∈ deduplicateOnboardingData data /\ email q = email p.
Proof.
  intros Hp. rewrite deduplicate_firstPerEmail.
  apply firstPerEmail_covers; [by rewrite arraySort_perm|by intros ?%elem_of_nil].
Qed.

(** When every submission date is a valid date, the record kept for an email
    is at least as recent as every record of that email. *)
Lemma deduplicate_most_recent_valid data p q :
  Forall hasValidDate data ->
  p ∈ data -> q ∈ deduplicateOnboardingData data -> email q = email p ->
  newerOrSame q p.
Proof.
  intros Hv Hp Hq He. rewrite deduplicate_firstPerEmail in Hq.
  apply (firstPerEmail_first_wins newerOrSame [] (arraySort byDateDesc data) p q);
    [| |by rewrite arraySort_perm|done..].
  - by apply arraySort_byDate_sorted.
  - rewrite arraySort_perm. eapply Forall_impl; [done|]. apply newerOrSame_refl.
Qed.

(** When every submission date is a valid date, the output is most recent
    first. *)
Lemma deduplicate_sorted_valid data :
  Forall hasValidDate data ->
  StronglySorted newerOrSame (deduplicateOnboardingData data).
Proof.
  intros Hv. rewrite deduplicate_firstPerEmail.
  by apply firstPerEmail_sorted, arraySort_byDate_sorted.
Qed.

(** ** Objects *)

Lemma getProp_setProp k k' v o :
  getProp k (setProp k' v o) = if String.eqb k k' then Some v else getProp k o.
Proof.
  induction o as [|[k0 v0] o IH]; simpl.
  - by destruct (String.eqb k k').
  - destruct (String.eqb_spec k' k0) as [->|Hne]; simpl.
    + by destruct (String.eqb k k0).
    + rewrite IH. destruct (String.eqb_spec k k0) as [->|]; [|done].
      destruct (String.eqb_spec k0 k'); [congruence|done].
Qed.

Lemma currentProps_strings headers index row o :
  (forall k v, getProp k o = Some v -> exists s, v = VStr s) ->
  forall k v, getProp k (currentProps headers index row o) = Some v -> exists s, v = VStr s.
Proof.
  revert index o. induction headers as [|header headers IH]; intros index o Ho; [done|].
  simpl. apply IH.
  destruct (Str.nonEmpty header && assignable (camelize header)); [|done].
  intros k v. rewrite getProp_setProp.
  destruct (String.eqb k (camelize header)); [|by apply Ho].
  intros [= <-]. eauto.
Qed.

Lemma currentRow_emailReadable headers i row : emailReadable (currentRow headers i row).
Proof.
  unfold emailReadable, lowerEmail, currentRow. rewrite getProp_setProp. simpl.
  destruct (getProp "email" (currentProps headers 0 row [])) as [v|] eqn:E; [|done].
  apply currentProps_strings in E as [s ->]; [done|]. by intros k v'.
Qed.

(** Every object read from the dashboard sheet has a readable email. *)
Lemma getCurrentNetworkingData_emailReadable rows :
  Forall emailReadable (getCurrentNetworkingData rows).
Proof.
  destruct rows as [|headers dataRows]; [constructor|]. simpl.
  generalize 1%nat. induction dataRows as [|row dataRows IH]; intros i; simpl.
  - constructor.
  - constructor; [apply currentRow_emailReadable|apply IH].
Qed.

(** ** The merger *)

Lemma collides_true e currentData :
  collides e currentData = true <->
  exists person s, person ∈ currentData /\ getProp "email" person = Some (VStr s) /\
    s <> "" /\ Str.toLowerCase s = e.
Proof.
  unfold collides. rewrite existsb_exists. split.
  - intros (person & Hin%list_elem_of_In & Hp).
    destruct (getProp "email" person) as [[s| |]|] eqn:E; try done.
    apply andb_true_iff in Hp as [Hs%StrFacts.nonEmpty_true He%String.eqb_eq].
    by exists person, s.
  - intros (person & s & Hin%list_elem_of_In & E & Hs%StrFacts.nonEmpty_true & He).
    exists person. split; [done|]. rewrite E, Hs. by apply String.eqb_eq.
Qed.

Lemma collides_app e l1 l2 : collides e (l1 ++ l2) = collides e l1 || collides e l2.
Proof. apply existsb_app. Qed.

Lemma keptEmails_collides currentData (emails : list (option string)) e :
  mapM lowerEmail currentData = Some emails ->
  e ∈ omap keptEmail emails <-> collides e currentData = true.
Proof.
  revert emails. induction currentData as [|person rest IH]; intros emails; simpl.
  - intros [= <-]. simpl. split; [by intros ?%elem_of_nil|done].
  - destruct (lowerEmail person) as [y|] eqn:Hp; [|done]. simpl.
    destruct (mapM lowerEmail rest) as [es|] eqn:Hrest; [|done]. simpl.
    specialize (IH es eq_refl). intros [= <-].
    unfold lowerEmail in Hp.
    destruct (getProp "email" person) as [[s| |]|]; try done;
      injection Hp as <-; simpl; [|done].
    rewrite StrFacts.nonEmpty_toLowerCase.
    destruct (Str.nonEmpty s); simpl; [|done].
    rewrite elem_of_cons, IH, orb_true_iff, String.eqb_eq.
    split; (intros [?|?]; [by left|by right]).
Qed.

Lemma currentEmailSet_elem currentData emailSet e :
  currentEmailSet currentData = Some emailSet ->
  e ∈ emailSet <-> collides e currentData = true.
Proof.
  unfold currentEmailSet.
  destruct (mapM lowerEmail currentData) as [emails|] eqn:E; [|done].
  simpl. intros [= <-]. rewrite elem_of_list_to_set. by apply keptEmails_collides.
Qed.

Lemma currentEmailSet_total currentData :
  Forall emailReadable currentData -> is_Some (currentEmailSet currentData).
Proof.
  intros Hr. unfold currentEmailSet.
  destruct (mapM lowerEmail currentData) as [emails|] eqn:E; [by eexists|].
  assert (is_Some (mapM lowerEmail currentData)) as [? ?]; [|congruence].
  by apply mapM_is_Some.
Qed.

Lemma newPeople_filter onboardingData currentData :
  Forall emailReadable currentData ->
  newPeople onboardingData currentData =
  Some (filter (fun p => collides (email p) currentData = false) onboardingData).
Proof.
  intros [emailSet Hs]%currentEmailSet_total. unfold newPeople. rewrite Hs. simpl.
  f_equal. apply list_filter_iff. intros p.
  rewrite (currentEmailSet_elem _ _ (email p) Hs).
  by destruct (collides (email p) currentData).
Qed.

Section MergeFacts.

Variable clock : nat -> Z.

Lemma existingPerson_total i person :
  emailReadable person -> is_Some (existingPerson clock i person).
Proof. intros [e He]. unfold existingPerson. rewrite He. simpl. eauto. Qed.

Lemma existingPerson_email i person k :
  existingPerson clock i person = Some k ->
  (forall s, getProp "email" person = Some (VStr s) ->
     getProp "email" k = Some (VStr (Str.toLowerCase s))) /\
  (getProp "email" person = None -> getProp "email" k = Some (VStr "")) /\
  exists s, getProp "email" k = Some (VStr s).
Proof.
  unfold existingPerson, lowerEmail.
  destruct (getProp "email" person) as [[s| |]|]; simpl; try done.
  - intros [= <-]. simpl. rewrite StrFacts.nonEmpty_toLowerCase.
    assert (forall d, (if Str.nonEmpty s then VStr (Str.toLowerCase s) else VStr d)
                      = VStr (if Str.nonEmpty s then Str.toLowerCase s else d)) as ->
      by (intros; by destruct (Str.nonEmpty s)).
    split; [|split; [done|eauto]].
    intros ? [= <-]. f_equal. f_equal.
    destruct (Str.nonEmpty s) eqn:E; [done|].
    by apply StrFacts.nonEmpty_false in E as ->.
  - intros [= <-]. simpl. repeat split; [done..|eauto].
Qed.

Lemma existingPeopleFrom_lookup i currentData kept :
  existingPeopleFrom clock i currentData = Some kept ->
  length kept = length currentData /\
  forall n, (existingPerson clock (i + n) <$> currentData !! n) = (Some <$> kept !! n).
Proof.
  revert i kept. induction currentData as [|person rest IH]; intros i kept; simpl.
  - intros [= <-]. split; [done|]. by intros n.
  - destruct (existingPerson clock i person) as [k|] eqn:Hk; [|done]. simpl.
    destruct (existingPeopleFrom clock (S i) rest) as [ks|] eqn:Hks; [|done]. simpl.
    intros [= <-]. destruct (IH _ _ Hks) as [Hlen Hn]. split; [simpl; lia|].
    intros [|n]; simpl.
    + by rewrite Nat.add_0_r, Hk.
    + rewrite <- Hn. by rewrite Nat.add_succ_r.
Qed.

Lemma existingPeopleFrom_total i currentData :
  Forall emailReadable currentData -> is_Some (existingPeopleFrom clock i currentData).
Proof.
  intros Hr. revert i. induction Hr as [|person rest Hp _ IH]; intros i; simpl; [eauto|].
  destruct (existingPerson_total i person Hp) as [k ->].
  destruct (IH (S i)) as [ks ->]. simpl. eauto.
Qed.

Lemma mergeNetworkingData_parts onboardingData currentData :
  Forall emailReadable currentData ->
  exists kept,
    existingPeople clock currentData = Some kept /\
    mergeNetworkingData clock onboardingData currentData =
      Some (kept ++ (personObj <$>
        filter (fun p => collides (email p) currentData = false) onboardingData))%list.
Proof.
  intros Hr. destruct (existingPeopleFrom_total 0 currentData Hr) as [kept Hk].
  exists kept. split; [done|].
  unfold mergeNetworkingData. rewrite newPeople_filter by done.
  simpl. unfold existingPeople. by rewrite Hk.
Qed.

End MergeFacts.

Lemma filter_none {A : Type} (P : A -> Prop) `{!forall x, Decision (P x)} (l : list A) :
  (forall x, x ∈ l -> ~ P x) -> filter P l = [].
Proof.
  induction l as [|x l IH]; intros Hl; [done|].
  rewrite filter_cons_False by (apply Hl; by left).
  apply IH. intros y Hy. apply Hl. by right.
Qed.

Lemma personObj_email p : getProp "email" (personObj p) = Some (VStr (email p)).
Proof. done. Qed.

Lemma mergeNetworkingData_readable clock onboardingData currentData merged :
  mergeNetworkingData clock onboardingData currentData = Some merged ->
  Forall emailReadable currentData.
Proof.
  unfold mergeNetworkingData, newPeople, currentEmailSet.
  destruct (mapM lowerEmail currentData) as [emails|] eqn:E; [|done].
  intros _. apply (mapM_is_Some lowerEmail currentData). by eexists.
Qed.

(** After a merge, every email of the onboarding data is the email of a
    record of the merged list. *)
Lemma merged_covers_onboarding clock onboardingData currentData merged :
  Forall (fun p => normalizedEmail (email p)) onboardingData ->
  mergeNetworkingData clock onboardingData currentData = Some merged ->
  Forall emailReadable merged /\
  forall p, p ∈ onboardingData -> collides (email p) merged = true.
Proof.
  intros Hn Hm. pose proof (mergeNetworkingData_readable _ _ _ _ Hm) as Hr.
  destruct (mergeNetworkingData_parts clock onboardingData currentData Hr)
    as (kept & Hk & Hm').
  rewrite Hm in Hm'. injection Hm' as ->.
  destruct (existingPeopleFrom_lookup clock 0 currentData kept Hk) as [Hlen Hlook].
  assert (forall n k, kept !! n = Some k ->
            exists person, currentData !! n = Some person /\
              existingPerson clock n person = Some k) as Hkept.
  { intros n k Hnk. specialize (Hlook n). rewrite Hnk in Hlook. simpl in Hlook.
    destruct (currentData !! n) as [person|]; [|done].
    exists person. split; [done|]. simpl in Hlook. congruence. }
  split.
  - apply Forall_app. split.
    + apply Forall_forall. intros k (n & Hnk)%list_elem_of_lookup.
      destruct (Hkept n k Hnk) as (person & _ & Hp).
      apply existingPerson_email in Hp as (_ & _ & s & Hs).
      unfold emailReadable, lowerEmail. rewrite Hs. by eexists.
    + apply Forall_fmap, Forall_forall. intros p _. eexists. reflexivity.
  - intros p Hp. rewrite collides_app. apply orb_true_iff.
    eapply Forall_forall in Hn as [Hne Hlow]; [|exact Hp].
    destruct (collides (email p) currentData) eqn:Hc.
    + left. apply collides_true in Hc as (person & s & Hin & Hs & Hsne & He).
      apply list_elem_of_lookup in Hin as [n Hnp].
      specialize (Hlook n). rewrite Hnp in Hlook. simpl in Hlook.
      destruct (kept !! n) as [k|] eqn:Hnk; [|done]. simpl in Hlook.
      injection Hlook as Hlook.
      apply existingPerson_email in Hlook as (Hke & _).
      apply collides_true. exists k, (Str.toLowerCase s). repeat split.
      * apply list_elem_of_lookup. eauto.
      * by apply Hke.
      * by rewrite StrFacts.toLowerCase_empty.
      * by rewrite StrFacts.toLowerCase_idem.
    + right. apply collides_true. exists (personObj p), (email p). repeat split; try done.
      apply list_elem_of_fmap. exists p. split; [done|].
      by apply list_elem_of_filter.
Qed.

Lemma merge_again_adds_nothing clock1 clock2 onboardingData currentData merged :
  Forall (fun p => normalizedEmail (email p)) onboardingData ->
  mergeNetworkingData clock1 onboardingData currentData = Some merged ->
  newPeople onboardingData merged = Some [] /\
  exists kept2, mergeNetworkingData clock2 onboardingData merged = Some kept2 /\
    existingPeople clock2 merged = Some kept2 /\ length kept2 = length merged.
Proof.
  intros Hn Hm.
  destruct (merged_covers_onboarding _ _ _ _ Hn Hm) as [Hr Hc].
  assert (filter (fun p => collides (email p) merged = false) onboardingData = []) as Hf.
  { apply filter_none. intros p Hp. rewrite (Hc p Hp). done. }
  split; [by rewrite newPeople_filter, Hf|].
  destruct (mergeNetworkingData_parts clock2 onboardingData merged Hr) as (kept2 & Hk & Hm2).
  exists kept2. rewrite Hm2, Hf. simpl. rewrite app_nil_r. repeat split; [done|].
  by apply existingPeopleFrom_lookup in Hk as [? _].
Qed.

(** The normalizer writes normalized emails, and the deduplicator passes
    records on as they are. *)
Lemma getOnboardingData_normalizedEmail {engine : Engine} clock rows data :
  getOnboardingData clock rows = Some data ->
  Forall (fun p => normalizedEmail (email p)) data.
Proof.
  destruct rows as [|headers dataRows]; simpl; [by intros [= <-]|].
  destruct (emailIndex headers) as [emailIdx|]; [|done].
  intros [= <-]. apply Forall_forall.
  intros p (k & row & _ & Hp)%onboardingRows_elem.
  apply onboardingRow_Some in Hp as (cell & _ & Ht & -> & _). split.
  - by rewrite StrFacts.toLowerCase_empty.
  - apply StrFacts.toLowerCase_idem.
Qed.

Lemma deduplicate_Forall (P : Person -> Prop) data :
  Forall P data -> Forall P (deduplicateOnboardingData data).
Proof.
  rewrite !Forall_forall. intros HP q Hq. by apply HP, deduplicate_subset.
Qed.

Lemma getOnboardingData_email_fixed {engine : Engine} clock rows data :
  getOnboardingData clock rows = Some data ->
  Forall (fun p => Str.toLowerCase (Str.trim (email p)) = email p) data.
Proof.
  destruct rows as [|headers dataRows]; simpl; [by intros [= <-]|].
  destruct (emailIndex headers) as [emailIdx|]; [|done].
  intros [= <-]. apply Forall_forall.
  intros p (k & row & _ & Hp)%onboardingRows_elem.
  apply onboardingRow_Some in Hp as (cell & _ & _ & -> & _).
  rewrite (StrFacts.toLowerCase_trim (Str.toLowerCase (Str.trim cell))).
  rewrite StrFacts.toLowerCase_idem.
  by rewrite <- StrFacts.toLowerCase_trim, StrFacts.trim_idem.
Qed.

(** On what the normalizer produced, trimming and lower-casing the emails
    again changes nothing: the output of the deduplicator has no two records
    with the same trimmed, lower-cased email. *)
Lemma deduplicate_unique_normalized {engine : Engine} clock rows data :
  getOnboardingData clock rows = Some data ->
  NoDup ((fun p => Str.toLowerCase (Str.trim (email p))) <$>
           deduplicateOnboardingData data).
Proof.
  intros Hd.
  assert ((fun p => Str.toLowerCase (Str.trim (email p))) <$> deduplicateOnboardingData data
          = email <$> deduplicateOnboardingData data) as ->.
  { apply Forall_fmap_ext. by eapply deduplicate_Forall, getOnboardingData_email_fixed. }
  rewrite deduplicate_firstPerEmail. apply firstPerEmail_NoDup.
Qed.

(** C1 (the code at the failing input).  The function is documented as one
    that "keeps existing people unchanged", and its body says "Keep ALL
    existing people exactly as they are (no updates)".  The person on the
    sample dashboard is nevertheless not in the merged list: the record kept
    for it has a lower-cased email, a default status, a fresh submission date
    and a row number, and has lost the "notes" and "id" properties. *)
Lemma existing_person_not_kept_verbatim :
  exists person kept,
    sampleDashboard = [person] /\
    mergeNetworkingData sampleClock [] sampleDashboard = Some [kept] /\
    kept <> person /\
    getProp "email" person = Some (VStr "Bob@X.com") /\
    getProp "email" kept = Some (VStr "bob@x.com") /\
    getProp "notes" person = Some (VStr "met at the fair") /\
    getProp "notes" kept = None /\
    getProp "currentStatus" person = None /\
    getProp "currentStatus" kept = Some (VStr "current") /\
    getProp "submissionDate" person = None /\
    getProp "submissionDate" kept = Some (VDate (DateAt (sampleClock 0))).
Proof.
  eexists _, _. split; [reflexivity|]. split; [vm_compute; reflexivity|].
  split; [discriminate|]. vm_compute. repeat split.
Qed.

(** What the merger does with the existing people.  The merged list starts
    with one record per existing person, in the same order, built from that
    person alone — the onboarding data plays no part in it.  The record has
    eleven properties: the email in lower case (stated for ASCII emails;
    empty when missing); name, company, position, location, linkedin, github
    and graduationYear as they are (empty when missing or empty);
    currentStatus as it is ("current" when missing or empty); the instant of
    the merge as submissionDate; and the person's [id] as rowId (0 when
    missing). *)
Lemma existing_people_rebuilt clock onboardingData currentData :
  Forall emailReadable currentData ->
  exists kept added,
    mergeNetworkingData clock onboardingData currentData =
      Some (kept ++ (personObj <$> added))%list /\
    existingPeople clock currentData = Some kept /\
    length kept = length currentData /\
    forall i person, currentData !! i = Some person ->
      exists k, kept !! i = Some k /\
        k.*1 = ["email"; "name"; "company"; "position"; "location"; "linkedin";
                "github"; "graduationYear"; "currentStatus"; "submissionDate";
                "rowId"] /\
        (forall s, getProp "email" person = Some (VStr s) -> asciiText s = true ->
           getProp "email" k = Some (VStr (Str.toLowerCase s))) /\
        (getProp "email" person = None -> getProp "email" k = Some (VStr "")) /\
        (forall f, f ∈ copiedProps ->
           getProp f k = Some (orElse (getProp f person) (VStr ""))) /\
        getProp "currentStatus" k =
          Some (orElse (getProp "currentStatus" person) (VStr "current")) /\
        getProp "submissionDate" k = Some (VDate (DateAt (clock i))) /\
        getProp "rowId" k = Some (orElse (getProp "id" person) (VNum 0)).
Proof.
  intros Hr.
  destruct (mergeNetworkingData_parts clock onboardingData currentData Hr)
    as (kept & Hk & Hm).
  eexists kept, _. split; [exact Hm|]. split; [done|].
  destruct (existingPeopleFrom_lookup clock 0 currentData kept Hk) as [Hlen Hlook].
  split; [done|]. intros i person Hi.
  specialize (Hlook i). rewrite Hi in Hlook. simpl in Hlook.
  destruct (kept !! i) as [k|]; [|done]. simpl in Hlook.
  injection Hlook as Hlook.
  exists k. split; [done|].
  destruct (existingPerson_email clock i person k Hlook) as (He1 & He2 & _).
  unfold existingPerson in Hlook.
  destruct (lowerEmail person) as [e|]; [|done]. simpl in Hlook.
  injection Hlook as <-. repeat split; try done.
  { intros s Hs _. by apply He1. }
  intros f Hf. unfold copiedProps in Hf.
  repeat (apply elem_of_cons in Hf as [->|Hf]; [done|]).
  by apply elem_of_nil in Hf.
Qed.

(** C4 (the code at the failing input).  The onboarding reader trims and
    lower-cases an email; the merger, which is to add the people "not already
    in dashboard", lower-cases the emails of the dashboard and does not trim
    them.  The dashboard holds "bob@x.com " with a trailing blank; trimmed
    and lower-cased this is Bob's email, yet Bob is added. *)
Lemma untrimmed_existing_email_does_not_collide :
  exists bob person,
    getOnboardingData (engine := sampleEngine) sampleClock
      [["Email"]; ["bob@x.com"]] = Some [bob] /\
    getCurrentNetworkingData [["Email"]; ["bob@x.com "]] = [person] /\
    getProp "email" person = Some (VStr "bob@x.com ") /\
    email bob = Str.toLowerCase (Str.trim "bob@x.com ") /\
    newPeople (deduplicateOnboardingData [bob]) [person] = Some [bob].
Proof.
  eexists _, _. split; [vm_compute; reflexivity|]. split; [vm_compute; reflexivity|].
  vm_compute. repeat split.
Qed.

(** What the merger compares.  The added people are the onboarding records,
    in their order, that [collides] does not match: those whose email is not
    the lower-cased email of an existing person with a non-empty email
    (existing emails are lower-cased, not trimmed).  In particular no added
    record's email is the lower-cased non-empty ASCII email of an existing
    person. *)
Lemma new_people_by_lowercased_email onboardingData currentData :
  Forall emailReadable currentData ->
  newPeople onboardingData currentData =
    Some (filter (fun p => collides (email p) currentData = false) onboardingData) /\
  forall added, newPeople onboardingData currentData = Some added ->
    forall p person s, p ∈ added -> person ∈ currentData ->
      getProp "email" person = Some (VStr s) -> s <> "" -> asciiText s = true ->
      email p <> Str.toLowerCase s.
Proof.
  intros Hr. rewrite newPeople_filter by done. split; [done|].
  intros added [= <-] p person s [Hp _]%list_elem_of_filter Hin Hs Hne _ He.
  assert (collides (email p) currentData = true) as Hc; [|congruence].
  apply collides_true. by exists person, s.
Qed.

(** C5.  Take the deduplicated output of the normalizer as the new records
    and merge them into any existing records; merging the same new records
    into the merged list adds nobody: the second merge returns, and what it
    returns is only the rebuilt records of the first merged list. *)
Theorem merge_twice_adds_nothing {engine : Engine} clock rows data clock1 clock2
    currentData merged :
  getOnboardingData clock rows = Some data ->
  mergeNetworkingData clock1 (deduplicateOnboardingData data) currentData = Some merged ->
  newPeople (deduplicateOnboardingData data) merged = Some [] /\
  exists kept2,
    mergeNetworkingData clock2 (deduplicateOnboardingData data) merged = Some kept2 /\
    existingPeople clock2 merged = Some kept2 /\
    length kept2 = length merged.
Proof.
  intros Hd Hm. eapply merge_again_adds_nothing; [|exact Hm].
  by eapply deduplicate_Forall, getOnboardingData_normalizedEmail.
Qed.

(** From the two sheets: whenever the onboarding sheet can be read, the
    first merge returns, and the second one adds nobody. *)
Lemma sync_twice_adds_nothing {engine : Engine} clock rows data clock1 dashboardRows :
  getOnboardingData clock rows = Some data ->
  exists merged,
    mergeNetworkingData clock1 (deduplicateOnboardingData data)
      (getCurrentNetworkingData dashboardRows) = Some merged /\
    newPeople (deduplicateOnboardingData data) merged = Some [].
Proof.
  intros Hd.
  destruct (mergeNetworkingData_parts clock1 (deduplicateOnboardingData data)
              (getCurrentNetworkingData dashboardRows)
              (getCurrentNetworkingData_emailReadable dashboardRows))
    as (kept & _ & Hm).
  eexists. split; [exact Hm|].
  eapply (merge_again_adds_nothing clock1 clock1); [|exact Hm].
  by eapply deduplicate_Forall, getOnboardingData_normalizedEmail.
Qed.

(** ** Closed instances *)


(** C6 (as stated, refuted).  The status column resolved, the status cell of
    the row is empty, so its text does not contain "alumni"; the record is
    nevertheless [alumni], by the graduation year. *)
Lemma empty_status_cell_falls_through :
  statusIndex ["Email"; "Status"; "Graduation Year"] = Some 1%nat /\
  Str.includes (Str.toLowerCase (Str.trim "")) "alumni" = false /\
  ((fun data : list Person => currentStatus <$> data) <$>
     getOnboardingData (engine := sampleEngine) sampleClock
       [["Email"; "Status"; "Graduation Year"]; ["a@x.com"; ""; "2000"]])
  = Some [alumni].
Proof. vm_compute. repeat split. Qed.

(** C6 (amended), on a row whose status says alumni and whose graduation
    year lies ahead. *)
Lemma status_cell_decides_witness :
  exists p,
    onboardingRow (engine := sampleEngine) sampleClock
      ["Email"; "Status"; "Graduation Year"] 0 1 ["a@x.com"; " Alumni "; "2030"] = Some p /\
    currentStatus p = alumni.
Proof.
  eexists. split; [reflexivity|].
  exact (status_cell_decides (engine := sampleEngine) sampleClock
           ["Email"; "Status"; "Graduation Year"] 0 1 ["a@x.com"; " Alumni "; "2030"]
           _ 1 " Alumni " eq_refl eq_refl eq_refl ltac:(discriminate)).
Defined.

(** C7 (the code at the failing input).  A timestamp cell that is not a date
    gives the record the Invalid Date, not the instant of the clock. *)
Theorem unparseable_timestamp_gives_invalid_date :
  dateIndex ["Timestamp"; "Email"] = Some 0%nat /\
  dateParse (Engine := sampleEngine) "n/a" = InvalidDate /\
  ((fun data : list Person => submissionDate <$> data) <$>
     getOnboardingData (engine := sampleEngine) sampleClock
       [["Timestamp"; "Email"]; ["n/a"; "a@x.com"]])
  = Some [InvalidDate] /\
  InvalidDate <> DateAt (sampleClock 1).
Proof. vm_compute. repeat split. discriminate. Qed.

(** C3 (the code at the failing input).  Two submissions by one person, the
    first with a timestamp that is not a date: the comparator gives NaN, the
    order stays, and the deduplicator keeps the record with the Invalid Date
    and drops the one of 1 June 2024.  The record kept is not as recent as
    the record dropped. *)
Theorem invalid_date_record_wins :
  getOnboardingData (engine := sampleEngine) sampleClock sampleBadTimestampRows
    = Some sampleBadTimestamp /\
  email <$> sampleBadTimestamp = ["a@x.com"; "a@x.com"] /\
  submissionDate <$> sampleBadTimestamp = [InvalidDate; DateAt 1717200000000] /\
  submissionDate <$> deduplicateOnboardingData sampleBadTimestamp = [InvalidDate] /\
  exists p q, p ∈ sampleBadTimestamp /\
    q ∈ deduplicateOnboardingData sampleBadTimestamp /\
    email q = email p /\ ~ newerOrSame q p.
Proof.
  split; [reflexivity|]. split; [reflexivity|]. split; [reflexivity|].
  split; [vm_compute; reflexivity|].
  eexists _, _. split; [right; left|].
  split; [vm_compute; left|]. split; [reflexivity|]. vm_compute. discriminate.
Qed.

(** With an undated submission between an older and a newer one, the
    insertion sort leaves the three in place and the older one is kept. *)
Lemma invalid_date_lets_older_record_win :
  getOnboardingData (engine := sampleEngine) sampleClock sampleBadTimestampBetweenRows
    = Some sampleBadTimestampBetween /\
  email <$> sampleBadTimestampBetween = ["a@x.com"; "a@x.com"; "a@x.com"] /\
  submissionDate <$> sampleBadTimestampBetween
    = [DateAt 1672531200000; InvalidDate; DateAt 1717200000000] /\
  submissionDate <$> deduplicateOnboardingData sampleBadTimestampBetween
    = [DateAt 1672531200000].
Proof. repeat split; vm_compute; reflexivity. Qed.

(** C10 (the code at the failing input).  Two people, the first with a
    timestamp that is not a date: the output starts with the Invalid Date,
    which is not at or after 1 June 2024, so the output is not in
    non-increasing order of submission date. *)
Theorem invalid_date_breaks_order :
  getOnboardingData (engine := sampleEngine) sampleClock sampleBadTimestampPeopleRows
    = Some sampleBadTimestampPeople /\
  submissionDate <$> deduplicateOnboardingData sampleBadTimestampPeople
    = [InvalidDate; DateAt 1717200000000] /\
  ~ Sorted newerOrSame (deduplicateOnboardingData sampleBadTimestampPeople).
Proof.
  split; [reflexivity|]. split; [vm_compute; reflexivity|].
  intros Hs. vm_compute in Hs.
  apply Sorted_inv in Hs as [_ Hd]. apply HdRel_inv in Hd. discriminate.
Qed.

(** With an undated person between an older and a newer submission, the
    insertion sort leaves the three in place: 2023 comes before 2024. *)
Lemma invalid_date_leaves_older_first :
  getOnboardingData (engine := sampleEngine) sampleClock
    sampleBadTimestampThreePeopleRows = Some sampleBadTimestampThreePeople /\
  submissionDate <$> deduplicateOnboardingData sampleBadTimestampThreePeople
    = [DateAt 1672531200000; InvalidDate; DateAt 1717200000000].
Proof. repeat split; vm_compute; reflexivity. Qed.

(** The rebuilt records, on the sample dashboard. *)
Lemma existing_people_rebuilt_witness :
  Forall emailReadable sampleDashboard /\
  exists kept added,
    mergeNetworkingData sampleClock sampleOnboarding sampleDashboard =
      Some (kept ++ (personObj <$> added))%list /\
    existingPeople sampleClock sampleDashboard = Some kept /\
    length kept = length sampleDashboard.
Proof.
  assert (Forall emailReadable sampleDashboard) as Hr.
  { repeat constructor. eexists. reflexivity. }
  split; [exact Hr|].
  destruct (existing_people_rebuilt sampleClock sampleOnboarding sampleDashboard Hr)
    as (kept & added & Hm & Hk & Hlen & _).
  exists kept, added. repeat split; assumption.
Defined.

(** The comparison, on the sample sheets. *)
Lemma new_people_by_lowercased_email_witness :
  Forall emailReadable sampleDashboard /\
  newPeople sampleOnboarding sampleDashboard =
    Some (filter (fun p => collides (email p) sampleDashboard = false) sampleOnboarding).
Proof.
  assert (Forall emailReadable sampleDashboard) as Hr.
  { repeat constructor. eexists. reflexivity. }
  split; [exact Hr|].
  exact (proj1 (new_people_by_lowercased_email sampleOnboarding sampleDashboard Hr)).
Defined.

(** C5, on the sample sheets. *)
Lemma merge_twice_adds_nothing_witness :
  getOnboardingData (engine := sampleEngine) sampleClock sampleOnboardingRows
    = Some sampleOnboarding /\
  mergeNetworkingData sampleClock (deduplicateOnboardingData sampleOnboarding)
    sampleDashboard = Some sampleMerged /\
  newPeople (deduplicateOnboardingData sampleOnboarding) sampleMerged = Some [].
Proof.
  assert (mergeNetworkingData sampleClock (deduplicateOnboardingData sampleOnboarding)
            sampleDashboard = Some sampleMerged) as Hm by (vm_compute; reflexivity).
  split; [reflexivity|]. split; [exact Hm|].
  exact (proj1 (merge_twice_adds_nothing (engine := sampleEngine) sampleClock
                  sampleOnboardingRows sampleOnboarding sampleClock sampleClock
                  sampleDashboard sampleMerged eq_refl Hm)).
Defined.


(** * Further properties *)

(** ** Finding a column *)

Lemma findIndex_Some {A : Type} (p : A -> bool) (l : list A) i :
  findIndex p l = Some i <->
  exists x, l !! i = Some x /\ p x = true /\
    forall j y, (j < i)%nat -> l !! j = Some y -> p y = false.
Proof.
  revert i. induction l as [|x l IH]; intros i; simpl.
  - split; [done|]. by intros (y & Hy & _).
  - destruct (p x) eqn:Hx.
    + split.
      * intros [= <-]. exists x. repeat split; [done|]. intros j y Hj. lia.
      * intros (y & Hy & Hpy & Hmin). destruct i as [|i]; [done|].
        specialize (Hmin 0%nat x ltac:(lia) eq_refl). congruence.
    + destruct (findIndex p l) as [k|] eqn:Hk; simpl.
      * split.
        -- intros [= <-]. destruct (proj1 (IH k) eq_refl) as (y & Hy & Hpy & Hmin).
           exists y. repeat split; [done..|].
           intros [|j] z Hj Hz; [simpl in Hz; congruence|].
           apply (Hmin j); [lia|done].
        -- intros (y & Hy & Hpy & Hmin). destruct i as [|i]; [simpl in Hy; congruence|].
           f_equal. assert (Some k = Some i) as [= ->]; [|done].
           apply IH. exists y. repeat split; [done..|].
           intros j z Hj Hz. apply (Hmin (S j)); [lia|done].
      * split; [done|].
        intros (y & Hy & Hpy & Hmin). destruct i as [|i]; [simpl in Hy; congruence|].
        assert (None = Some i) as Habs; [|done].
        apply IH. exists y. repeat split; [done..|].
        intros j z Hj Hz. apply (Hmin (S j)); [lia|done].
Qed.

Lemma findIndex_None {A : Type} (p : A -> bool) (l : list A) :
  findIndex p l = None <-> forall x, x ∈ l -> p x = false.
Proof.
  induction l as [|x l IH]; simpl.
  - split; [|done]. by intros _ y ?%elem_of_nil.
  - destruct (p x) eqn:Hx.
    + split; [done|]. intros Hall. specialize (Hall x ltac:(by left)). congruence.
    + destruct (findIndex p l) as [k|]; simpl.
      * split; [done|]. intros Hall.
        assert (Some k = None) as Habs; [|done].
        apply IH. intros y Hy. apply Hall. by right.
      * split; [|done]. intros _ y [->|Hy]%elem_of_cons; [done|].
        by apply (proj1 IH).
Qed.

Lemma findIndex_fmap {A B : Type} (f : A -> B) (p : B -> bool) (l : list A) :
  findIndex p (f <$> l) = findIndex (fun x => p (f x)) l.
Proof.
  induction l as [|x l IH]; [done|].
  rewrite fmap_cons. cbn [findIndex]. by rewrite IH.
Qed.

Lemma findIndex_ext {A : Type} (p q : A -> bool) (l : list A) :
  (forall x, p x = q x) -> findIndex p l = findIndex q l.
Proof. intros Hpq. induction l as [|x l IH]; simpl; [done|]. by rewrite Hpq, IH. Qed.

Lemma findColumnIndex_cons headers name rest :
  findColumnIndex headers (name :: rest) =
  match findIndex (headerMatches name) headers with
  | Some index => Some index
  | None => findColumnIndex headers rest
  end.
Proof. done. Qed.

(** X1.  An index returned by [findColumnIndex] is a position of the header
    row, and the header there is not empty and contains one of the aliases,
    letter case aside. *)
Theorem findColumnIndex_sound headers possibleNames i :
  findColumnIndex headers possibleNames = Some i ->
  (i < length headers)%nat /\
  exists header alias,
    headers !! i = Some header /\ alias ∈ possibleNames /\ header <> "" /\
    Str.includes (Str.toLowerCase header) (Str.toLowerCase alias) = true.
Proof.
  induction possibleNames as [|alias rest IH]; [done|].
  rewrite findColumnIndex_cons.
  destruct (findIndex (headerMatches alias) headers) as [k|] eqn:Hk.
  - intros [= <-]. apply findIndex_Some in Hk as (header & Hh & Hm & _).
    split; [by eapply lookup_lt_Some|].
    apply andb_true_iff in Hm as [Hne%StrFacts.nonEmpty_true Hinc].
    exists header, alias. repeat split; [done|by left|done..].
  - intros Hi. destruct (IH Hi) as (Hlt & header & a & ? & ? & ? & ?).
    split; [done|]. exists header, a. repeat split; [done|by right|done..].
Qed.

(** X2.  [findColumnIndex] answers "absent" exactly when no header that is
    not empty contains any of the aliases, letter case aside. *)
Theorem findColumnIndex_absent headers possibleNames :
  findColumnIndex headers possibleNames = None <->
  forall alias header, alias ∈ possibleNames -> header ∈ headers ->
    header <> "" ->
    Str.includes (Str.toLowerCase header) (Str.toLowerCase alias) = false.
Proof.
  assert (forall alias header, headerMatches alias header = false <->
            (header <> "" ->
             Str.includes (Str.toLowerCase header) (Str.toLowerCase alias) = false))
    as Hm.
  { intros alias header. unfold headerMatches. rewrite andb_false_iff. split.
    - intros [He%StrFacts.nonEmpty_false|?] Hne; [done|done].
    - intros H. destruct (Str.nonEmpty header) eqn:E; [|by left].
      right. apply H. by apply StrFacts.nonEmpty_true. }
  induction possibleNames as [|alias rest IH].
  - split; [|done]. by intros _ a h ?%elem_of_nil.
  - rewrite findColumnIndex_cons.
    destruct (findIndex (headerMatches alias) headers) as [k|] eqn:Hk.
    + split; [done|]. intros Hall. exfalso.
      apply findIndex_Some in Hk as (header & Hh & Hmatch & _).
      assert (headerMatches alias header = false); [|congruence].
      apply Hm. apply Hall; [by left|]. by eapply list_elem_of_lookup_2.
    + rewrite IH. split.
      * intros Hrest a h [->|Ha]%elem_of_cons Hh; [|by apply Hrest].
        apply Hm. by eapply (proj1 (findIndex_None _ _)).
      * intros Hall a h Ha Hh. apply Hall; [by right|done].
Qed.

(** X3.  The order of the aliases comes before the order of the columns: if
    no header matches the aliases in front of [alias], and column [i] is the
    leftmost one whose header matches [alias], the answer is [i], whatever
    the later aliases match. *)
Theorem findColumnIndex_alias_priority headers before alias after i header :
  (forall a h, a ∈ before -> h ∈ headers -> headerMatches a h = false) ->
  headers !! i = Some header -> headerMatches alias header = true ->
  (forall j h, (j < i)%nat -> headers !! j = Some h -> headerMatches alias h = false) ->
  findColumnIndex headers (before ++ alias :: after) = Some i.
Proof.
  intros Hbefore Hi Hm Hleft.
  induction before as [|a before IH]; simpl app.
  - rewrite findColumnIndex_cons.
    assert (findIndex (headerMatches alias) headers = Some i) as ->; [|done].
    apply findIndex_Some. by exists header.
  - rewrite findColumnIndex_cons.
    assert (findIndex (headerMatches a) headers = None) as ->.
    { apply findIndex_None. intros h Hh. apply Hbefore; [by left|done]. }
    apply IH. intros a' h Ha Hh. apply Hbefore; [by right|done].
Qed.

(** X3, on a sheet where "Role" stands left of "Job Title": the position is
    read from "Job Title", the earlier alias. *)
Lemma findColumnIndex_alias_priority_witness :
  positionIndex ["Full Name"; "Role"; "Job Title"] = Some 2%nat.
Proof.
  apply (findColumnIndex_alias_priority ["Full Name"; "Role"; "Job Title"]
           ["Position"; "position"] "Job Title" ["Role"; "Title"] 2 "Job Title").
  - intros a h Ha Hh.
    repeat (apply elem_of_cons in Ha as [->|Ha]);
      repeat (apply elem_of_cons in Hh as [->|Hh]);
      try reflexivity; try (by apply elem_of_nil in Ha); by apply elem_of_nil in Hh.
  - reflexivity.
  - reflexivity.
  - intros [|[|j]] h Hj Hh; [| |lia]; simpl in Hh; injection Hh as <-; reflexivity.
Defined.

Lemma headerMatches_toLowerCase alias header :
  headerMatches (Str.toLowerCase alias) (Str.toLowerCase header) = headerMatches alias header.
Proof.
  unfold headerMatches.
  by rewrite StrFacts.nonEmpty_toLowerCase, !StrFacts.toLowerCase_idem.
Qed.

(** X4.  The letter case of the headers and of the aliases does not matter:
    lower-casing all of them gives the same answer. *)
Theorem findColumnIndex_case_insensitive headers possibleNames :
  findColumnIndex (Str.toLowerCase <$> headers) (Str.toLowerCase <$> possibleNames) =
  findColumnIndex headers possibleNames.
Proof.
  induction possibleNames as [|alias rest IH]; [done|].
  rewrite fmap_cons, !findColumnIndex_cons, IH, findIndex_fmap.
  erewrite findIndex_ext; [done|]. intros h. apply headerMatches_toLowerCase.
Qed.

Lemma findColumnIndex_None_matches headers possibleNames :
  findColumnIndex headers possibleNames = None <->
  forall alias header, alias ∈ possibleNames -> header ∈ headers ->
    headerMatches alias header = false.
Proof.
  induction possibleNames as [|alias rest IH].
  - split; [|done]. by intros _ a h ?%elem_of_nil.
  - rewrite findColumnIndex_cons.
    destruct (findIndex (headerMatches alias) headers) as [k|] eqn:Hk.
    + split; [done|]. intros Hall. exfalso.
      apply findIndex_Some in Hk as (header & Hh & Hmatch & _).
      rewrite Hall in Hmatch; [done|by left|]. by eapply list_elem_of_lookup_2.
    + rewrite IH. split.
      * intros Hrest a h [->|Ha]%elem_of_cons Hh; [|by apply Hrest].
        by eapply (proj1 (findIndex_None _ _)).
      * intros Hall a h Ha Hh. apply Hall; [by right|done].
Qed.

(** ** Reading the onboarding sheet *)

Lemma prefix_app_l a b s : String.prefix (a ++ b)%string s = true -> String.prefix a s = true.
Proof.
  revert s. induction a as [|c a IH]; intros s; [by destruct s|].
  destruct s as [|d s]; simpl; [done|].
  destruct (ascii_dec c d); [apply IH|done].
Qed.

Lemma includes_app_l s a b :
  Str.includes s (a ++ b)%string = true -> Str.includes s a = true.
Proof.
  induction s as [|c s IH]; cbn [Str.includes]; rewrite !orb_true_iff.
  - intros [H%prefix_app_l|?]; [by left|done].
  - intros [H%prefix_app_l|H]; [by left|]. right. by apply IH.
Qed.

Lemma emailIndex_None headers :
  emailIndex headers = None <->
  forall header, header ∈ headers -> Str.includes (Str.toLowerCase header) "email" = false.
Proof.
  unfold emailIndex. rewrite findColumnIndex_None_matches. split.
  - intros Hall header Hh.
    specialize (Hall "email" header ltac:(right; by left) Hh).
    unfold headerMatches in Hall. apply andb_false_iff in Hall as [He|Hi]; [|done].
    by apply StrFacts.nonEmpty_false in He as ->.
  - intros Hall alias header Ha Hh. specialize (Hall header Hh).
    unfold headerMatches. apply andb_false_iff. right.
    repeat (apply elem_of_cons in Ha as [->|Ha]); [done|done| |by apply elem_of_nil in Ha].
    destruct (Str.includes (Str.toLowerCase header) (Str.toLowerCase "Email Address"))
      eqn:E; [|done].
    apply (includes_app_l _ "email" " address") in E. congruence.
Qed.

Section OnboardingFacts.

Context {engine : Engine}.
Variable clock : nat -> Z.

(** X5.  Reading the onboarding sheet fails exactly when the sheet has a
    header row and no header contains "email", letter case aside; an empty
    sheet is read as no records. *)
Theorem getOnboardingData_fails_without_email_column rows :
  (getOnboardingData clock rows = None <->
   exists headers dataRows, rows = headers :: dataRows /\
     forall header, header ∈ headers ->
       Str.includes (Str.toLowerCase header) "email" = false) /\
  getOnboardingData clock [] = Some [].
Proof.
  split; [|done]. destruct rows as [|headers dataRows]; simpl.
  - split; [done|]. by intros (? & ? & ? & _).
  - pose proof (emailIndex_None headers) as He.
    destruct (emailIndex headers) as [emailIdx|].
    + split; [done|]. intros (h & d & [= <- <-] & Hall).
      by apply He in Hall.
    + split; [|done]. intros _. exists headers, dataRows. split; [done|]. by apply He.
Qed.

Lemma onboardingRows_rowIds headers emailIdx i rows :
  (length (onboardingRows clock headers emailIdx i rows) <= length rows)%nat /\
  StronglySorted Z.lt (rowId <$> onboardingRows clock headers emailIdx i rows) /\
  Forall (fun p => Z.of_nat i + 1 <= rowId p <= Z.of_nat i + Z.of_nat (length rows))
    (onboardingRows clock headers emailIdx i rows).
Proof.
  revert i. induction rows as [|row rows IH]; intros i; simpl.
  - repeat split; constructor.
  - destruct (IH (S i)) as (Hlen & Hs & Hr).
    assert (Forall (fun p => Z.of_nat i + 1 < rowId p /\
                      Z.of_nat i + 1 <= rowId p <= Z.of_nat i + Z.of_nat (S (length rows)))
              (onboardingRows clock headers emailIdx (S i) rows)) as Hr'.
    { eapply Forall_impl; [exact Hr|]. simpl. intros p. lia. }
    destruct (onboardingRow clock headers emailIdx i row) as [q|] eqn:E.
    + apply onboardingRow_Some in E as (_ & _ & _ & _ & Hq & _).
      repeat split.
      * simpl. lia.
      * rewrite fmap_cons. constructor; [done|].
        apply Forall_fmap. eapply Forall_impl; [exact Hr'|]. simpl. intros p. lia.
      * constructor; [lia|]. eapply Forall_impl; [exact Hr'|]. simpl. intros p. lia.
    + repeat split; [lia|done|].
      eapply Forall_impl; [exact Hr'|]. simpl. intros p. lia.
Qed.

(** X6.  The records come out in sheet order: their row numbers increase
    strictly, each lies between 2 and the number of rows of the sheet, and
    there are no more records than data rows. *)
Theorem getOnboardingData_row_numbers rows data :
  getOnboardingData clock rows = Some data ->
  (length data <= length rows - 1)%nat /\
  StronglySorted Z.lt (rowId <$> data) /\
  Forall (fun p => 2 <= rowId p <= Z.of_nat (length rows)) data.
Proof.
  destruct rows as [|headers dataRows]; simpl.
  - intros [= <-]. repeat split; constructor.
  - destruct (emailIndex headers) as [emailIdx|]; [|done]. intros [= <-].
    destruct (onboardingRows_rowIds headers emailIdx 1 dataRows) as (Hlen & Hs & Hr).
    repeat split; [lia|done|].
    eapply Forall_impl; [exact Hr|]. simpl. intros p. lia.
Qed.

Lemma cellText_trimmed index row : Str.trim (cellText index row) = cellText index row.
Proof.
  unfold cellText. destruct index as [i|]; [|done].
  destruct (row !! i); [apply StrFacts.trim_idem|done].
Qed.

(** X7.  In every record that is read, each text field is trimmed, and the
    email is moreover not empty and in lower case. *)
Theorem getOnboardingData_fields_trimmed rows data :
  getOnboardingData clock rows = Some data ->
  Forall (fun p => Forall (fun s => Str.trim s = s) (textFields p) /\
                   email p <> "" /\ Str.toLowerCase (email p) = email p) data.
Proof.
  intros Hd. pose proof (getOnboardingData_normalizedEmail clock rows data Hd) as Hn.
  destruct rows as [|headers dataRows]; simpl in Hd; [injection Hd as <-; constructor|].
  destruct (emailIndex headers) as [emailIdx|]; [|done]. injection Hd as <-.
  apply Forall_forall. intros p Hp.
  eapply Forall_forall in Hn as [Hne Hlow]; [|exact Hp].
  split; [|done].
  apply onboardingRows_elem in Hp as (k & row & _ & Hp).
  unfold onboardingRow in Hp. destruct (row !! emailIdx) as [cell|]; [|done].
  destruct (Str.nonEmpty cell && Str.nonEmpty (Str.trim cell)); [|done].
  injection Hp as <-. unfold textFields. simpl.
  repeat (constructor; [first [apply cellText_trimmed
    | by rewrite <- StrFacts.toLowerCase_trim, StrFacts.trim_idem]|]).
  constructor.
Qed.

(** X8.  A record is [alumni] in exactly two cases: its status cell is
    filled and contains "alumni", letter case aside; or its status cell is
    not filled (no status column, or a missing or empty cell), its graduation
    cell is filled, and [parseInt] reads from it a year before the current
    one.  A graduation cell that is not a number never makes an alumnus. *)
Theorem alumni_exactly_when headers emailIdx i row p :
  onboardingRow clock headers emailIdx i row = Some p ->
  currentStatus p = alumni <->
  (exists cell, filledCell (statusIndex headers) row = Some cell /\
     Str.includes (Str.toLowerCase cell) "alumni" = true) \/
  (filledCell (statusIndex headers) row = None /\
   exists cell year, filledCell (graduationIndex headers) row = Some cell /\
     parseInt cell = Some year /\ year < getFullYear (clock i)).
Proof.
  intros Hp. apply onboardingRow_Some in Hp as (_ & _ & _ & _ & _ & -> & _).
  unfold rowStatus.
  destruct (filledCell (statusIndex headers) row) as [cell|].
  - destruct (Str.includes (Str.toLowerCase cell) "alumni") eqn:E.
    + split; [|done]. intros _. left. eauto.
    + split; [done|]. intros [(c & [= <-] & Hc)|[? _]]; congruence.
  - destruct (filledCell (graduationIndex headers) row) as [cell|].
    + destruct (parseInt cell) as [year|] eqn:Hparse.
      * destruct (Z.ltb_spec year (getFullYear (clock i))).
        -- split; [|done]. intros _. right. split; [done|]. by exists cell, year.
        -- split; [done|].
           intros [(c & ? & _)|(_ & c & y & [= <-] & Hy & ?)]; [done|].
           rewrite Hparse in Hy. injection Hy as <-. lia.
      * split; [done|].
        intros [(c & ? & _)|(_ & c & y & [= <-] & Hy & _)]; [done|congruence].
    + split; [done|]. intros [(c & ? & _)|(_ & c & y & ? & _)]; done.
Qed.

(** X9.  If every filled timestamp cell of the sheet parses as a date, every
    record has a valid submission date. *)
Theorem getOnboardingData_valid_dates headers dataRows data :
  getOnboardingData clock (headers :: dataRows) = Some data ->
  (forall row cell, row ∈ dataRows ->
     filledCell (dateIndex headers) row = Some cell ->
     validDate (dateParse cell) = true) ->
  Forall hasValidDate data.
Proof.
  simpl. destruct (emailIndex headers) as [emailIdx|]; [|done]. intros [= <-] Hparse.
  apply Forall_forall. intros p (k & row & Hk & Hp)%onboardingRows_elem.
  apply onboardingRow_Some in Hp as (_ & _ & _ & _ & _ & _ & Hd).
  unfold hasValidDate. rewrite Hd. unfold rowSubmissionDate.
  destruct (filledCell (dateIndex headers) row) as [cell|] eqn:E; [|done].
  eapply Hparse; [|exact E]. by eapply list_elem_of_lookup_2.
Qed.

End OnboardingFacts.

(** ** Deduplicating *)

Lemma firstPerEmail_length seen l : (length (firstPerEmail seen l) <= length l)%nat.
Proof.
  revert seen. induction l as [|p l IH]; intros seen; simpl; [done|].
  case_bool_decide; [specialize (IH seen)|specialize (IH (seen ++ [email p])%list)];
    simpl; lia.
Qed.

Lemma firstPerEmail_NoDup_id seen l :
  NoDup (email <$> l) -> (forall p, p ∈ l -> email p ∉ seen) ->
  firstPerEmail seen l = l.
Proof.
  revert seen. induction l as [|p l IH]; intros seen Hnd Hseen; simpl; [done|].
  rewrite fmap_cons in Hnd. apply NoDup_cons in Hnd as [Hp Hnd].
  rewrite bool_decide_eq_false_2 by (apply Hseen; by left).
  f_equal. apply IH; [done|].
  intros q Hq [Hin|Hin%list_elem_of_singleton]%elem_of_app.
  - by apply (Hseen q); [right|].
  - apply Hp. rewrite <- Hin. by apply list_elem_of_fmap_2.
Qed.

(** X10.  The deduplicator invents nothing and loses nobody: every record
    that comes out is one that came in, the emails that come out are exactly
    the emails that came in, and no more records come out than came in. *)
Theorem deduplicate_keeps_every_email data :
  (forall q, q ∈ deduplicateOnboardingData data -> q ∈ data) /\
  (forall e, e ∈ email <$> deduplicateOnboardingData data <-> e ∈ email <$> data) /\
  (length (deduplicateOnboardingData data) <= length data)%nat.
Proof.
  split; [apply deduplicate_subset|]. split.
  - intros e. rewrite !list_elem_of_fmap. split.
    + intros (q & -> & Hq). exists q. split; [done|]. by apply deduplicate_subset.
    + intros (p & -> & Hp). destruct (deduplicate_covers data p Hp) as (q & Hq & He).
      by exists q.
  - rewrite deduplicate_firstPerEmail.
    etransitivity; [apply firstPerEmail_length|].
    by rewrite (Permutation_length (arraySort_perm byDateDesc data)).
Qed.

(** X11.  When all submission dates are valid, every person that came in is
    represented by a record at least as recent as each of that person's
    submissions. *)
Theorem deduplicate_keeps_most_recent data :
  Forall hasValidDate data ->
  forall p, p ∈ data ->
    exists q, q ∈ deduplicateOnboardingData data /\ email q = email p /\
      forall p', p' ∈ data -> email p' = email p -> newerOrSame q p'.
Proof.
  intros Hv p Hp. destruct (deduplicate_covers data p Hp) as (q & Hq & He).
  exists q. repeat split; [done..|].
  intros p' Hp' He'. apply (deduplicate_most_recent_valid data p' q); [done..|congruence].
Qed.

(** X12.  When all submission dates are valid, the records come out most
    recent first: each one is at least as recent as all that follow it. *)
Theorem deduplicate_most_recent_first data :
  Forall hasValidDate data ->
  StronglySorted newerOrSame (deduplicateOnboardingData data).
Proof.
  intros Hv. rewrite deduplicate_firstPerEmail.
  apply firstPerEmail_sorted. by apply arraySort_byDate_sorted.
Qed.

(** X13.  When no two records that come in share an email, nothing is
    removed: the output is the input in another order. *)
Theorem deduplicate_distinct_emails data :
  NoDup (email <$> data) -> deduplicateOnboardingData data ≡ₚ data.
Proof.
  intros Hnd. rewrite deduplicate_firstPerEmail.
  rewrite firstPerEmail_NoDup_id; [apply arraySort_perm| |].
  - by rewrite (arraySort_perm byDateDesc data).
  - intros p _. apply not_elem_of_nil.
Qed.

Lemma arraySort_sorted_id l :
  Forall hasValidDate l -> StronglySorted newerOrSame l -> arraySort byDateDesc l = l.
Proof.
  intros Hv Hs. induction Hs as [|x l Hs IH Hx]; [done|].
  apply Forall_cons in Hv as [Hvx Hv]. simpl. rewrite IH by done.
  destruct l as [|y l]; [done|]. simpl.
  apply Forall_cons in Hx as [Hxy _]. apply Forall_cons in Hv as [Hvy _].
  destruct (hasValidDate_time x Hvx) as [tx Htx].
  destruct (hasValidDate_time y Hvy) as [ty Hty].
  apply (newerOrSame_times x y tx ty Htx Hty) in Hxy.
  unfold byDateDesc. rewrite Htx, Hty. simpl.
  destruct (Z.leb_spec (ty - tx) 0); [done|lia].
Qed.

(** X14.  When all submission dates are valid, deduplicating twice is
    deduplicating once. *)
Theorem deduplicate_idempotent data :
  Forall hasValidDate data ->
  deduplicateOnboardingData (deduplicateOnboardingData data) =
  deduplicateOnboardingData data.
Proof.
  intros Hv.
  rewrite (deduplicate_firstPerEmail (deduplicateOnboardingData data)).
  rewrite arraySort_sorted_id.
  - apply firstPerEmail_NoDup_id.
    + rewrite deduplicate_firstPerEmail. apply firstPerEmail_NoDup.
    + intros p _. apply not_elem_of_nil.
  - by apply deduplicate_Forall.
  - by apply deduplicate_sorted_valid.
Qed.

(** The sort is stable: it moves a record only past records submitted
    strictly later, so records of one instant keep their order. *)
Lemma sortInsert_split x sorted :
  exists before after,
    sorted = (before ++ after)%list /\
    sortInsert byDateDesc x sorted = (before ++ x :: after)%list /\
    Forall (fun y => forall t, submissionTime x = Some t -> submissionTime y <> Some t)
      before.
Proof.
  induction sorted as [|y sorted IH]; simpl.
  - by exists [], [].
  - destruct (Z.leb_spec (sortOrder (byDateDesc x y)) 0) as [Hle|Hgt].
    + by exists [], (y :: sorted).
    + destruct IH as (before & after & -> & -> & Hb).
      exists (y :: before), after. split; [done|]. split; [done|].
      constructor; [|done]. intros t Hx Hy.
      unfold byDateDesc, submissionTime in *. rewrite Hx, Hy in Hgt. simpl in Hgt. lia.
Qed.

Lemma arraySort_stable t l :
  filter (fun p => submissionTime p = Some t) (arraySort byDateDesc l) =
  filter (fun p => submissionTime p = Some t) l.
Proof.
  induction l as [|x l IH]; simpl; [done|].
  destruct (sortInsert_split x (arraySort byDateDesc l)) as (before & after & Hl & -> & Hb).
  rewrite Hl in IH. rewrite filter_app in IH |- *.
  destruct (decide (submissionTime x = Some t)) as [Hx|Hx].
  - assert (filter (fun p => submissionTime p = Some t) before = []) as Hnil.
    { apply filter_none. intros y Hy. eapply Forall_forall in Hb; [|exact Hy]. by apply Hb. }
    rewrite Hnil in IH |- *. simpl in IH |- *.
    rewrite !filter_cons_True by done. by rewrite IH.
  - rewrite !filter_cons_False by done. done.
Qed.

Lemma firstPerEmail_head seen l q :
  q ∈ firstPerEmail seen l -> head (filter (fun p => email p = email q) l) = Some q.
Proof.
  revert seen. induction l as [|x l IH]; intros seen; simpl.
  - by intros ?%elem_of_nil.
  - case_bool_decide as E.
    + intros Hq. pose proof (firstPerEmail_elem _ _ _ Hq) as [_ Hn].
      rewrite filter_cons_False; [by eapply IH|]. intros He. by rewrite <- He in Hn.
    + intros [->|Hq]%elem_of_cons; [by rewrite filter_cons_True|].
      pose proof (firstPerEmail_elem _ _ _ Hq) as [_ Hn].
      rewrite filter_cons_False; [by eapply IH|].
      intros He. apply Hn, elem_of_app. right. rewrite He. by left.
Qed.

Lemma head_filter_and {A : Type} (P Q : A -> Prop)
    `{!forall x, Decision (P x), !forall x, Decision (Q x)} (l : list A) q :
  head (filter P l) = Some q -> Q q ->
  head (filter (fun x => P x /\ Q x) l) = Some q.
Proof.
  induction l as [|x l IH]; [done|].
  destruct (decide (P x)) as [HP|HP].
  - rewrite (filter_cons_True P) by done. simpl. intros [= ->] HQ.
    by rewrite filter_cons_True.
  - rewrite (filter_cons_False P) by done. intros Hh HQ.
    rewrite filter_cons_False by (intros [? _]; done). by apply IH.
Qed.

(** X15.  When every submission date is valid, ties go to the earlier row:
    the record kept for a person is the first one, in the order of the input,
    among that person's records with the same submission instant.  (With
    valid dates the comparator is a consistent order, so a stable sort has
    one possible result; with an Invalid Date among the records the order is
    the engine's own, and nothing is stated.) *)
Theorem deduplicate_tie_goes_to_first data q t :
  Forall hasValidDate data ->
  q ∈ deduplicateOnboardingData data -> submissionTime q = Some t ->
  head (filter (fun p => email p = email q /\ submissionTime p = Some t) data) = Some q.
Proof.
  intros _. rewrite deduplicate_firstPerEmail. intros Hq Ht.
  apply firstPerEmail_head in Hq.
  apply (head_filter_and _ (fun p => submissionTime p = Some t)) in Hq; [|done].
  rewrite <- Hq.
  rewrite <- !(list_filter_filter (fun p => email p = email q)
                 (fun p => submissionTime p = Some t)).
  by rewrite arraySort_stable.
Qed.

(** ** Reading the dashboard sheet *)

Lemma currentRows_lookup headers i rows k :
  currentRows headers i rows !! k = currentRow headers (i + k) <$> rows !! k.
Proof.
  revert i k. induction rows as [|row rows IH]; intros i k; simpl; [done|].
  destruct k as [|k]; simpl; [by rewrite Nat.add_0_r|].
  rewrite IH. by rewrite Nat.add_succ_r.
Qed.

Lemma currentRows_length headers i rows : length (currentRows headers i rows) = length rows.
Proof. revert i. induction rows as [|row rows IH]; intros i; simpl; [done|]. by rewrite IH. Qed.

(** X16.  There is one object per data row, and the [id] of the object of
    row [k] (counting data rows from 0) is the sheet row number [k + 2], also
    when a column of the sheet is itself called "id". *)
Theorem getCurrentNetworkingData_ids rows :
  length (getCurrentNetworkingData rows) = (length rows - 1)%nat /\
  forall k person, getCurrentNetworkingData rows !! k = Some person ->
    getProp "id" person = Some (VNum (Z.of_nat k + 2)).
Proof.
  destruct rows as [|headers dataRows]; simpl.
  - split; [done|]. by intros k person.
  - split; [rewrite currentRows_length; lia|].
    intros k person. rewrite currentRows_lookup.
    destruct (dataRows !! k) as [row|]; [|done]. simpl. intros [= <-].
    unfold currentRow. rewrite getProp_setProp. simpl. do 2 f_equal. lia.
Qed.

Lemma setProp_keys k v v' (o o' : obj) :
  o.*1 = o'.*1 -> (setProp k v o).*1 = (setProp k v' o').*1.
Proof.
  revert o'. induction o as [|[k0 v0] o IH]; intros [|[k1 v1] o']; simpl; try done.
  intros [= -> Hk]. destruct (String.eqb k k1); simpl; [by rewrite Hk|].
  f_equal. by apply IH.
Qed.

Lemma currentProps_keys headers index index' row row' (o o' : obj) :
  o.*1 = o'.*1 ->
  (currentProps headers index row o).*1 = (currentProps headers index' row' o').*1.
Proof.
  revert index index' o o'. induction headers as [|header headers IH];
    intros index index' o o' Hk; simpl; [done|].
  apply IH. destruct (Str.nonEmpty header && assignable (camelize header));
    [by apply setProp_keys|done].
Qed.

(** X17.  All objects read from one sheet have the same property names in
    the same order: the names depend on the header row only, not on the cells
    of the row or on its number. *)
Theorem getCurrentNetworkingData_same_keys rows person person' :
  person ∈ getCurrentNetworkingData rows -> person' ∈ getCurrentNetworkingData rows ->
  person.*1 = person'.*1.
Proof.
  destruct rows as [|headers dataRows]; simpl; [by intros ?%elem_of_nil|].
  intros [k Hk]%list_elem_of_lookup [k' Hk']%list_elem_of_lookup.
  rewrite currentRows_lookup in Hk, Hk'.
  destruct (dataRows !! k) as [row|]; [|done].
  destruct (dataRows !! k') as [row'|]; [|done].
  simpl in Hk, Hk'. injection Hk as <-. injection Hk' as <-.
  unfold currentRow. apply setProp_keys. by apply currentProps_keys.
Qed.

Lemma currentProps_untouched headers index row o k :
  (forall header, header ∈ headers -> header <> "" -> camelize header <> k) ->
  getProp k (currentProps headers index row o) = getProp k o.
Proof.
  revert index o. induction headers as [|header headers IH]; intros index o Hk; simpl;
    [done|].
  rewrite IH by (intros h Hh; apply Hk; by right).
  destruct (Str.nonEmpty header) eqn:E; [|done].
  destruct (assignable (camelize header)); [|done]. simpl.
  rewrite getProp_setProp.
  destruct (String.eqb_spec k (camelize header)) as [->|]; [|done].
  exfalso. apply (Hk header); [by left| |done]. by apply StrFacts.nonEmpty_true.
Qed.

Lemma assignable_true key : key <> "__proto__" -> assignable key = true.
Proof. unfold assignable. by destruct (String.eqb_spec key "__proto__"). Qed.

Lemma currentProps_last headers index row o j header :
  headers !! j = Some header -> header <> "" -> camelize header <> "__proto__" ->
  (forall j' h', (j < j')%nat -> headers !! j' = Some h' -> h' <> "" ->
     camelize h' <> camelize header) ->
  getProp (camelize header) (currentProps headers index row o) =
  Some (VStr (default "" (row !! (index + j)%nat))).
Proof.
  revert index o j. induction headers as [|h headers IH]; intros index o j; [done|].
  destruct j as [|j]; simpl.
  - intros [= ->] Hne Hproto Hlast.
    rewrite currentProps_untouched.
    + apply StrFacts.nonEmpty_true in Hne as ->.
      apply assignable_true in Hproto as ->. simpl.
      rewrite getProp_setProp, String.eqb_refl. by rewrite Nat.add_0_r.
    + intros h' [j' Hj']%list_elem_of_lookup Hne'.
      by apply (Hlast (S j') h'); [lia|..].
  - intros Hj Hne Hproto Hlast. rewrite (IH (S index) _ j); [|done..|].
    + by rewrite Nat.add_succ_r.
    + intros j' h' Hlt Hj' Hne'. by apply (Hlast (S j') h'); [lia|..].
Qed.

(** X18.  A property of an object holds the cell under the last header with
    that camelized name, and the empty string when the row has no cell there
    (the sheet leaves out trailing empty cells).  Two names are set apart:
    "id" is taken by the row number, and "__proto__" names no property of
    the object, the assignment under such a header being ignored. *)
Theorem currentRow_reads_last_header headers i row j header :
  headers !! j = Some header -> header <> "" -> camelize header <> "id" ->
  camelize header <> "__proto__" ->
  (forall j' h', (j < j')%nat -> headers !! j' = Some h' -> h' <> "" ->
     camelize h' <> camelize header) ->
  getProp (camelize header) (currentRow headers i row) =
  Some (VStr (default "" (row !! j))).
Proof.
  intros Hj Hne Hid Hproto Hlast. unfold currentRow. rewrite getProp_setProp.
  destruct (String.eqb_spec (camelize header) "id"); [done|].
  by rewrite (currentProps_last headers 0 row [] j header).
Qed.

Lemma lowerChar_upperChar c : Str.lowerChar (Str.upperChar c) = Str.lowerChar c.
Proof. destruct c as [[] [] [] [] [] [] [] []]; reflexivity. Qed.

Lemma isSpace_upperChar c : Str.isSpace (Str.upperChar c) = Str.isSpace c.
Proof. destruct c as [[] [] [] [] [] [] [] []]; reflexivity. Qed.

Lemma toLowerCase_camelizeFrom first prevWord s :
  Str.toLowerCase (camelizeFrom first prevWord s) = Str.toLowerCase s.
Proof.
  revert first prevWord. induction s as [|c s IH]; intros first prevWord; simpl; [done|].
  rewrite IH. f_equal.
  repeat match goal with |- context [if ?b then _ else _] => destruct b end;
    auto using StrFacts.lowerChar_idem, lowerChar_upperChar.
Qed.

Lemma toLowerCase_removeSpaces s :
  Str.toLowerCase (Str.removeSpaces s) = Str.removeSpaces (Str.toLowerCase s).
Proof.
  induction s as [|c s IH]; simpl; [done|].
  rewrite StrFacts.isSpace_lowerChar. destruct (Str.isSpace c); simpl; by rewrite IH.
Qed.

Lemma removeSpaces_no_space s c :
  In c (list_ascii_of_string (Str.removeSpaces s)) -> Str.isSpace c = false.
Proof.
  induction s as [|d s IH]; simpl; [done|].
  destruct (Str.isSpace d) eqn:E; [done|]. simpl. intros [<-|?]; [done|by apply IH].
Qed.

(** X19.  [camelize] changes nothing but the case of letters and the white
    space: lower-cased, the result is the lower-cased header without its
    white space; and the result contains no white space. *)
Theorem camelize_changes_case_and_spaces_only str :
  Str.toLowerCase (camelize str) = Str.removeSpaces (Str.toLowerCase str) /\
  forall c, In c (list_ascii_of_string (camelize str)) -> Str.isSpace c = false.
Proof.
  unfold camelize. split; [|apply removeSpaces_no_space].
  rewrite toLowerCase_removeSpaces. by rewrite toLowerCase_camelizeFrom.
Qed.

(** ** Merging *)

Lemma filter_all {A : Type} (P : A -> Prop) `{!forall x, Decision (P x)} (l : list A) :
  (forall x, x ∈ l -> P x) -> filter P l = l.
Proof.
  induction l as [|x l IH]; intros Hl; [done|].
  rewrite filter_cons_True by (apply Hl; by left).
  f_equal. apply IH. intros y Hy. apply Hl. by right.
Qed.

Lemma filter_ext_elem {A : Type} (P Q : A -> Prop)
    `{!forall x, Decision (P x), !forall x, Decision (Q x)} (l : list A) :
  (forall x, x ∈ l -> P x <-> Q x) -> filter P l = filter Q l.
Proof.
  induction l as [|x l IH]; intros Hl; [done|].
  assert (filter P l = filter Q l) as Hrec by (apply IH; intros y Hy; apply Hl; by right).
  destruct (decide (P x)) as [HP|HP].
  - rewrite !filter_cons_True; [by rewrite Hrec|by apply (Hl x); [left|]|done].
  - rewrite !filter_cons_False; [done| |done].
    intros HQ. apply HP. by apply (Hl x); [left|].
Qed.

Lemma getCurrentNetworkingData_prop rows person :
  person ∈ getCurrentNetworkingData rows ->
  exists headers dataRows i row, rows = headers :: dataRows /\ row ∈ dataRows /\
    person = currentRow headers i row.
Proof.
  destruct rows as [|headers dataRows]; simpl; [by intros ?%elem_of_nil|].
  intros [n Hn]%list_elem_of_lookup. rewrite currentRows_lookup in Hn.
  destruct (dataRows !! n) as [row|] eqn:E; [|done]. simpl in Hn. injection Hn as <-.
  exists headers, dataRows, (1 + n)%nat, row.
  split; [done|]. split; [by eapply list_elem_of_lookup_2|done].
Qed.

(** X20.  A dashboard without a column whose camelized header is "email"
    (for instance one headed "Email Address", whose property is
    "emailAddress") blocks nobody: every onboarding record counts as new. *)
Theorem no_email_property_everyone_is_new onboardingData headers dataRows :
  (forall header, header ∈ headers -> header <> "" -> camelize header <> "email") ->
  newPeople onboardingData (getCurrentNetworkingData (headers :: dataRows)) =
  Some onboardingData.
Proof.
  intros Hno.
  rewrite newPeople_filter by apply getCurrentNetworkingData_emailReadable.
  f_equal. apply filter_all. intros p _.
  destruct (collides (email p) (getCurrentNetworkingData (headers :: dataRows))) eqn:E;
    [|done].
  apply collides_true in E as (person & s & Hin & Hs & _).
  apply getCurrentNetworkingData_prop in Hin
    as (h & d & i & row & [= <- <-] & _ & ->).
  unfold currentRow in Hs. rewrite getProp_setProp in Hs. simpl in Hs.
  by rewrite currentProps_untouched in Hs.
Qed.

Lemma emailReadable_not person :
  ~ emailReadable person <->
  exists v, getProp "email" person = Some v /\ forall s, v <> VStr s.
Proof.
  unfold emailReadable, lowerEmail. split.
  - destruct (getProp "email" person) as [[s| |]|] eqn:E.
    + intros H. exfalso. apply H. by eexists.
    + intros _. by eexists.
    + intros _. by eexists.
    + intros H. exfalso. apply H. by eexists.
  - intros (v & -> & Hv) [x Hx]. destruct v as [s| |]; [by apply (Hv s)|done..].
Qed.

(** X21.  Merging throws exactly when an existing person has an email
    property that is not a string; on the objects read from the dashboard
    sheet it never does. *)
Theorem mergeNetworkingData_throws_exactly_when clock onboardingData currentData :
  (mergeNetworkingData clock onboardingData currentData = None <->
   Exists (fun person => exists v, getProp "email" person = Some v /\
                           forall s, v <> VStr s) currentData) /\
  forall rows, is_Some (mergeNetworkingData clock onboardingData
                          (getCurrentNetworkingData rows)).
Proof.
  split.
  - split.
    + intros Hnone. apply Exists_exists.
      destruct (decide (Forall emailReadable currentData)) as [Hr|Hr].
      * destruct (mergeNetworkingData_parts clock onboardingData currentData Hr)
          as (kept & _ & Hm). congruence.
      * apply not_Forall_Exists in Hr; [|apply _].
        apply Exists_exists in Hr as (person & Hin & Hp).
        exists person. split; [done|]. by apply emailReadable_not.
    + intros (person & Hin & Hp)%Exists_exists.
      destruct (mergeNetworkingData clock onboardingData currentData) as [merged|] eqn:E;
        [|done].
      apply mergeNetworkingData_readable in E.
      eapply Forall_forall in E; [|exact Hin]. by apply emailReadable_not in Hp.
  - intros rows.
    destruct (mergeNetworkingData_parts clock onboardingData
                (getCurrentNetworkingData rows)
                (getCurrentNetworkingData_emailReadable rows)) as (kept & _ & ->).
    by eexists.
Qed.

(** ** Appending *)

Lemma existingPeopleFrom_Forall2 clock i currentData kept :
  existingPeopleFrom clock i currentData = Some kept ->
  Forall2 (fun person k => exists j, existingPerson clock j person = Some k)
    currentData kept.
Proof.
  revert i kept. induction currentData as [|person rest IH]; intros i kept; simpl.
  - intros [= <-]. constructor.
  - destruct (existingPerson clock i person) as [k|] eqn:Hk; [|done]. simpl.
    destruct (existingPeopleFrom clock (S i) rest) as [ks|] eqn:Hks; [|done]. simpl.
    intros [= <-]. constructor; [eauto|by eapply IH].
Qed.

Lemma existingPerson_noEmail clock j person k :
  existingPerson clock j person = Some k -> noEmail k = noEmail person.
Proof.
  intros Hk. pose proof (existingPerson_email clock j person k Hk) as (He1 & He2 & _).
  unfold existingPerson, lowerEmail in Hk. unfold noEmail.
  destruct (getProp "email" person) as [[s| |]|]; try done.
  - rewrite (He1 s eq_refl). by rewrite StrFacts.nonEmpty_toLowerCase.
  - by rewrite He2.
Qed.

Lemma existingPerson_setHas clock j person k currentData emailSet :
  existingPerson clock j person = Some k -> person ∈ currentData ->
  currentEmailSet currentData = Some emailSet ->
  setHas emailSet (getProp "email" k) = negb (noEmail k).
Proof.
  intros Hk Hin Hs.
  pose proof (existingPerson_noEmail clock j person k Hk) as Hno.
  pose proof (existingPerson_email clock j person k Hk) as (He1 & He2 & _).
  unfold noEmail in *.
  destruct (getProp "email" person) as [[s| |]|] eqn:E.
  - rewrite (He1 s eq_refl) in Hno |- *. simpl.
    rewrite StrFacts.nonEmpty_toLowerCase, negb_involutive in *.
    destruct (Str.nonEmpty s) eqn:Hne.
    + apply bool_decide_eq_true. apply (currentEmailSet_elem _ _ _ Hs).
      apply collides_true. exists person, s. repeat split; [done..|].
      by apply StrFacts.nonEmpty_true.
    + apply bool_decide_eq_false. rewrite (currentEmailSet_elem _ _ _ Hs).
      apply StrFacts.nonEmpty_false in Hne as ->. simpl.
      intros (p' & s' & _ & _ & Hs' & Hl)%collides_true.
      by apply Hs', StrFacts.toLowerCase_empty.
  - unfold existingPerson, lowerEmail in Hk. by rewrite E in Hk.
  - unfold existingPerson, lowerEmail in Hk. by rewrite E in Hk.
  - rewrite (He2 eq_refl). simpl.
    apply bool_decide_eq_false. rewrite (currentEmailSet_elem _ _ _ Hs).
    intros (p' & s' & _ & _ & Hs' & Hl)%collides_true.
    by apply Hs', StrFacts.toLowerCase_empty.
Qed.

Lemma filter_noEmail_length clock currentData kept :
  Forall2 (fun person k => exists j, existingPerson clock j person = Some k)
    currentData kept ->
  length (filter (fun k => noEmail k = true) kept) =
  length (filter (fun person => noEmail person = true) currentData).
Proof.
  induction 1 as [|person k rest ks [j Hk] _ IH]; [done|].
  rewrite !filter_cons, (existingPerson_noEmail clock j person k Hk).
  destruct (decide (noEmail person = true)); simpl; by rewrite IH.
Qed.

Lemma appendedPeople_merged clock onboardingData currentData merged :
  mergeNetworkingData clock onboardingData currentData = Some merged ->
  exists kept added,
    existingPeople clock currentData = Some kept /\
    newPeople onboardingData currentData = Some added /\
    merged = (kept ++ (personObj <$> added))%list /\
    appendedPeople merged currentData =
      Some (filter (fun k => noEmail k = true) kept ++ (personObj <$> added))%list /\
    length (filter (fun k => noEmail k = true) kept) =
      length (filter (fun person => noEmail person = true) currentData).
Proof.
  intros Hm. pose proof (mergeNetworkingData_readable _ _ _ _ Hm) as Hr.
  destruct (mergeNetworkingData_parts clock onboardingData currentData Hr)
    as (kept & Hk & Hm').
  rewrite Hm in Hm'. injection Hm' as ->.
  eexists kept, _. split; [done|]. split; [by apply newPeople_filter|].
  split; [done|].
  pose proof (existingPeopleFrom_Forall2 clock 0 currentData kept Hk) as H2.
  split; [|by eapply filter_noEmail_length].
  destruct (currentEmailSet_total currentData Hr) as [emailSet Hs].
  unfold appendedPeople. rewrite Hs. simpl. f_equal.
  rewrite filter_app. f_equal.
  - apply filter_ext_elem. intros k [n Hn]%list_elem_of_lookup.
    destruct (Forall2_lookup_r _ _ _ _ _ H2 Hn) as (person & Hp & j & Hj).
    rewrite (existingPerson_setHas clock j person k currentData emailSet Hj); [|
      by eapply list_elem_of_lookup_2|done].
    by destruct (noEmail k).
  - apply filter_all. intros o (p & -> & Hp)%list_elem_of_fmap.
    apply list_elem_of_filter in Hp as [Hc _]. simpl.
    apply bool_decide_eq_false. by rewrite (currentEmailSet_elem _ _ _ Hs), Hc.
Qed.

(** X22.  The people appended to the sheet are the new people of the merge
    and, in front of them, the rebuilt records of the existing people whose
    email is missing or empty: such rows of the dashboard are appended again
    by every run.  When every existing person has an email, exactly the new
    people are appended. *)
Theorem appended_people_are_new_or_without_email clock onboardingData currentData
    merged :
  mergeNetworkingData clock onboardingData currentData = Some merged ->
  exists kept added,
    existingPeople clock currentData = Some kept /\
    newPeople onboardingData currentData = Some added /\
    appendedPeople merged currentData =
      Some (filter (fun k => noEmail k = true) kept ++ (personObj <$> added))%list /\
    length (filter (fun k => noEmail k = true) kept) =
      length (filter (fun person => noEmail person = true) currentData) /\
    (Forall (fun person => noEmail person = false) currentData ->
     appendedPeople merged currentData = Some (personObj <$> added)).
Proof.
  intros Hm.
  destruct (appendedPeople_merged clock onboardingData currentData merged Hm)
    as (kept & added & Hk & Ha & _ & Happ & Hlen).
  exists kept, added. repeat split; [done..|].
  intros Hall. rewrite Happ. do 2 f_equal.
  assert (filter (fun person => noEmail person = true) currentData = []) as Hnil.
  { apply filter_none. intros person Hp.
    eapply Forall_forall in Hall; [|exact Hp]. congruence. }
  rewrite Hnil in Hlen. simpl in Hlen.
  destruct (filter (fun k => noEmail k = true) kept); [done|simpl in Hlen; lia].
Qed.

Lemma orElse_text x : orElse (Some (VStr x)) (VStr "") = VStr x.
Proof.
  unfold orElse, truthy. destruct (Str.nonEmpty x) eqn:E; [done|].
  by apply StrFacts.nonEmpty_false in E as ->.
Qed.

Lemma cellFor_written p p' header :
  writtenFields p = writtenFields p' ->
  cellFor (personObj p) header = cellFor (personObj p') header.
Proof.
  unfold writtenFields. intros [= He Hn Hpe Hph Hma Hmi Hc Hsy Hg Hl Hpo Hco Hp Hs Hd Hcr Hr Hj Hi].
  unfold cellFor. cbn [personObj getProp String.eqb Ascii.eqb Bool.eqb].
  by rewrite He, Hn, Hpe, Hph, Hma, Hmi, Hc, Hsy, Hg, Hl, Hpo, Hco, Hp, Hs, Hd, Hcr, Hr, Hj, Hi.
Qed.

Lemma cellFor_text p header : exists s, cellFor (personObj p) header = Some (VStr s).
Proof.
  unfold cellFor. cbn [personObj getProp String.eqb Ascii.eqb Bool.eqb].
  rewrite !orElse_text.
  repeat match goal with |- context [if ?b then _ else _] => destruct b end; eauto.
Qed.

(** X23.  A row built for an onboarding record has one cell per header of
    the sheet, every cell is a string, and the row depends only on the
    nineteen fields the builder knows: the location, the GitHub link, the
    department, the updated graduation year, the status, the submission date
    and the row number of a person are never written. *)
Theorem buildRow_writes_known_fields_only headers p p' :
  writtenFields p = writtenFields p' ->
  buildRow headers (personObj p) = buildRow headers (personObj p') /\
  length (buildRow headers (personObj p)) = length headers /\
  Forall (fun cell => exists s, cell = Some (VStr s)) (buildRow headers (personObj p)).
Proof.
  intros Hw. unfold buildRow. repeat split.
  - apply list_fmap_ext. intros _ header _. by apply cellFor_written.
  - by rewrite length_fmap.
  - apply Forall_fmap, Forall_forall. intros header _. apply cellFor_text.
Qed.

Lemma currentRow_email_back headers i j header p sheetRow :
  headers !! j = Some header -> camelize header = "email" ->
  Str.includes (Str.toLowerCase header) "email" = true ->
  Str.includes (Str.toLowerCase header) "personal" = false ->
  (forall j' h', (j < j')%nat -> headers !! j' = Some h' -> h' <> "" ->
     camelize h' <> "email") ->
  storedAs (buildRow headers (personObj p)) sheetRow ->
  getProp "email" (currentRow headers i sheetRow) = Some (VStr (email p)).
Proof.
  intros Hj Hc He Hp Hlast [Hlen Hst]. unfold currentRow.
  rewrite getProp_setProp. simpl. rewrite <- Hc.
  rewrite (currentProps_last headers 0 sheetRow [] j header); [|done| | |].
  - simpl. do 2 f_equal.
    assert (buildRow headers (personObj p) !! j = Some (Some (VStr (email p)))) as Hcell.
    { unfold buildRow. rewrite list_lookup_fmap, Hj. simpl. unfold cellFor.
      by rewrite He, Hp. }
    apply Hst in Hcell. congruence.
  - intros ->. done.
  - by rewrite Hc.
  - rewrite Hc. exact Hlast.
Qed.

(** X24.  What is written is read back: if the sheet has a column whose
    header contains "email" but not "personal" and camelizes to "email", and
    no later column camelizes to "email", then the row built for a person,
    given back by the sheet (with or without its empty cells at the end) and
    read as a row of the dashboard, is an object whose email is the person's
    email. *)
Theorem written_email_is_read_back headers i j header p sheetRow :
  headers !! j = Some header -> camelize header = "email" ->
  Str.includes (Str.toLowerCase header) "email" = true ->
  Str.includes (Str.toLowerCase header) "personal" = false ->
  (forall j' h', (j < j')%nat -> headers !! j' = Some h' -> h' <> "" ->
     camelize h' <> "email") ->
  storedAs (buildRow headers (personObj p)) sheetRow ->
  getProp "email" (currentRow headers i sheetRow) = Some (VStr (email p)).
Proof.
  intros Hj Hc He Hp Hlast Hst. pose proof Hst as [Hlen Hcells].
  assert (default "" (sheetRow !! j) = email p) as Hcell.
  { assert (buildRow headers (personObj p) !! j = Some (Some (VStr (email p)))) as Hb.
    { unfold buildRow. rewrite list_lookup_fmap, Hj. simpl. unfold cellFor.
      by rewrite He, Hp. }
    apply Hcells in Hb. congruence. }
  unfold currentRow. rewrite getProp_setProp. simpl. rewrite <- Hc.
  rewrite (currentProps_last headers 0 sheetRow [] j header); [|done| | |].
  - simpl. by rewrite Hcell.
  - intros ->. done.
  - by rewrite Hc.
  - rewrite Hc. exact Hlast.
Qed.

(** ** Statistics *)

Lemma someSameEmail_collides e currentData :
  Forall emailReadable currentData -> e <> "" ->
  someSameEmail e currentData = Some (collides e currentData).
Proof.
  intros Hr He. induction Hr as [|person rest [le Hle] _ IH]; [done|].
  simpl. rewrite Hle. simpl. rewrite IH. unfold lowerEmail in Hle.
  destruct (getProp "email" person) as [[s| |]|]; try done; injection Hle as <-.
  - case_bool_decide as E.
    + injection E as E. subst e.
      rewrite String.eqb_refl, <- StrFacts.nonEmpty_toLowerCase.
      by apply StrFacts.nonEmpty_true in He as ->.
    + assert (String.eqb (Str.toLowerCase s) e = false) as ->.
      { apply String.eqb_neq. congruence. }
      by rewrite andb_false_r.
  - by rewrite bool_decide_eq_false_2.
Qed.

Lemma countNewEntries_length deduplicatedData currentData :
  Forall emailReadable currentData ->
  Forall (fun p => email p <> "") deduplicatedData ->
  countNewEntries deduplicatedData currentData =
  Some (Z.of_nat (length (filter (fun p => collides (email p) currentData = false)
                            deduplicatedData))).
Proof.
  intros Hr Hd. induction Hd as [|p rest Hp _ IH]; [done|].
  simpl. rewrite (someSameEmail_collides _ _ Hr Hp), IH. simpl.
  rewrite filter_cons. destruct (collides (email p) currentData); simpl; f_equal; lia.
Qed.

Section SyncFacts.

Context {engine : Engine}.
Variable onboardingClock mergeClock : nat -> Z.

Lemma sync_parts onboardingRows networkingRows existingRows data :
  getOnboardingData onboardingClock onboardingRows = Some data ->
  exists kept added,
    existingPeople mergeClock (getCurrentNetworkingData networkingRows) = Some kept /\
    newPeople (deduplicateOnboardingData data) (getCurrentNetworkingData networkingRows)
      = Some added /\
    length (filter (fun k => noEmail k = true) kept) =
      length (filter (fun person => noEmail person = true)
                (getCurrentNetworkingData networkingRows)) /\
    sync onboardingClock mergeClock onboardingRows networkingRows existingRows =
      Some (newRows existingRows
              (filter (fun k => noEmail k = true) kept ++ (personObj <$> added))%list,
            {| totalOnboardingEntries := Z.of_nat (length data);
               deduplicatedEntries := Z.of_nat (length (deduplicateOnboardingData data));
               currentEntries := Z.of_nat (length (getCurrentNetworkingData networkingRows));
               finalEntries := Z.of_nat (length (getCurrentNetworkingData networkingRows))
                               + Z.of_nat (length added);
               newEntries := Z.of_nat (length added);
               updatedEntries := 0 |}).
Proof.
  intros Hd. set (currentData := getCurrentNetworkingData networkingRows).
  pose proof (getCurrentNetworkingData_emailReadable networkingRows) as Hr.
  fold currentData in Hr.
  destruct (mergeNetworkingData_parts mergeClock (deduplicateOnboardingData data)
              currentData Hr) as (kept0 & _ & Hm).
  destruct (appendedPeople_merged mergeClock _ _ _ Hm)
    as (kept & added & Hk & Ha & _ & Happ & Hlen).
  exists kept, added. split; [done|]. split; [done|]. split; [done|].
  unfold sync. rewrite Hd. simpl. fold currentData. rewrite Hm. simpl.
  rewrite Happ. simpl.
  rewrite countNewEntries_length; [|done|].
  - simpl. rewrite newPeople_filter in Ha by done. injection Ha as <-. done.
  - eapply Forall_impl; [by eapply deduplicate_Forall, getOnboardingData_normalizedEmail|].
    by intros p [? _].
Qed.

(** X25.  The computation of [sync] fails only where reading the onboarding
    sheet fails, that is, when that sheet has headers and none contains
    "email": nothing the dashboard sheet holds can make it throw. *)
Theorem sync_fails_only_on_onboarding onboardingRows networkingRows existingRows :
  sync onboardingClock mergeClock onboardingRows networkingRows existingRows = None <->
  getOnboardingData onboardingClock onboardingRows = None.
Proof.
  destruct (getOnboardingData onboardingClock onboardingRows) as [data|] eqn:Hd.
  - destruct (sync_parts onboardingRows networkingRows existingRows data Hd)
      as (kept & added & _ & _ & _ & ->). done.
  - unfold sync. by rewrite Hd.
Qed.

(** X26.  What [sync] reports: the counts of the records read and of the
    records left after deduplication, the count of the dashboard rows, as new
    entries the number of people the merge adds, as final entries the sum of
    the last two, and no updated entries.  It appends one row per new entry
    and one more per dashboard row without an email, each row as wide as the
    header row of the sheet. *)
Theorem sync_report onboardingRows networkingRows existingRows rows stats :
  sync onboardingClock mergeClock onboardingRows networkingRows existingRows
    = Some (rows, stats) ->
  exists data added,
    getOnboardingData onboardingClock onboardingRows = Some data /\
    newPeople (deduplicateOnboardingData data) (getCurrentNetworkingData networkingRows)
      = Some added /\
    totalOnboardingEntries stats = Z.of_nat (length data) /\
    deduplicatedEntries stats = Z.of_nat (length (deduplicateOnboardingData data)) /\
    deduplicatedEntries stats <= totalOnboardingEntries stats /\
    currentEntries stats = Z.of_nat (length networkingRows - 1) /\
    newEntries stats = Z.of_nat (length added) /\
    newEntries stats <= deduplicatedEntries stats /\
    finalEntries stats = currentEntries stats + newEntries stats /\
    updatedEntries stats = 0 /\
    Z.of_nat (length rows) = newEntries stats +
      Z.of_nat (length (filter (fun person => noEmail person = true)
                          (getCurrentNetworkingData networkingRows))) /\
    Forall (fun row => length row = length (default [] (head existingRows))) rows.
Proof.
  intros Hs.
  destruct (getOnboardingData onboardingClock onboardingRows) as [data|] eqn:Hd;
    [|unfold sync in Hs; by rewrite Hd in Hs].
  destruct (sync_parts onboardingRows networkingRows existingRows data Hd)
    as (kept & added & Hk & Ha & Hlen & Hsync).
  rewrite Hs in Hsync. injection Hsync as -> ->.
  exists data, added. simpl.
  pose proof (getCurrentNetworkingData_emailReadable networkingRows) as Hr.
  assert (length added <= length (deduplicateOnboardingData data))%nat as Hle.
  { rewrite newPeople_filter in Ha by done. injection Ha as <-. apply length_filter. }
  assert (length (deduplicateOnboardingData data) <= length data)%nat as Hle'.
  { rewrite deduplicate_firstPerEmail.
    etransitivity; [apply firstPerEmail_length|].
    by rewrite (Permutation_length (arraySort_perm byDateDesc data)). }
  assert (length (getCurrentNetworkingData networkingRows) = (length networkingRows - 1)%nat)
    as Hcur.
  { destruct networkingRows as [|h d]; simpl; [done|]. rewrite currentRows_length. lia. }
  split; [done|]. split; [done|]. split; [done|]. split; [done|]. split; [lia|].
  split; [by rewrite Hcur|]. split; [done|]. split; [lia|]. split; [done|].
  split; [done|]. split.
  - unfold newRows. rewrite length_fmap, length_app, length_fmap, Hlen. lia.
  - unfold newRows. apply Forall_fmap, Forall_forall. intros person _.
    simpl. unfold buildRow. by rewrite length_fmap.
Qed.

(** X27.  [preview] predicts what [sync] reports: it returns exactly when
    [sync] does, with the same counts; its updated entries are the
    deduplicated records that are not new, a number between 0 and the
    deduplicated count. *)
Theorem preview_predicts_sync onboardingRows networkingRows existingRows pstats :
  preview onboardingClock onboardingRows networkingRows = Some pstats ->
  exists rows stats,
    sync onboardingClock mergeClock onboardingRows networkingRows existingRows
      = Some (rows, stats) /\
    previewTotalOnboardingEntries pstats = totalOnboardingEntries stats /\
    previewDeduplicatedEntries pstats = deduplicatedEntries stats /\
    previewCurrentEntries pstats = currentEntries stats /\
    previewNewEntries pstats = newEntries stats /\
    previewUpdatedEntries pstats = deduplicatedEntries stats - newEntries stats /\
    0 <= previewUpdatedEntries pstats <= previewDeduplicatedEntries pstats.
Proof.
  intros Hp.
  destruct (getOnboardingData onboardingClock onboardingRows) as [data|] eqn:Hd;
    [|unfold preview in Hp; by rewrite Hd in Hp].
  destruct (sync_parts onboardingRows networkingRows existingRows data Hd)
    as (kept & added & Hk & Ha & Hlen & Hsync).
  eexists _, _. split; [exact Hsync|]. simpl.
  pose proof (getCurrentNetworkingData_emailReadable networkingRows) as Hr.
  unfold preview in Hp. rewrite Hd in Hp. simpl in Hp.
  rewrite countNewEntries_length in Hp; [|done|].
  - simpl in Hp. injection Hp as <-. simpl.
    rewrite newPeople_filter in Ha by done. injection Ha as <-.
    pose proof (length_filter
      (fun p => collides (email p) (getCurrentNetworkingData networkingRows) = false)
      (deduplicateOnboardingData data)).
    split; [done|]. split; [done|]. split; [done|]. split; [done|].
    split; [done|]. lia.
  - eapply Forall_impl; [by eapply deduplicate_Forall, getOnboardingData_normalizedEmail|].
    by intros p [? _].
Qed.

End SyncFacts.

(** ** Running twice *)

Lemma currentRows_app headers i rows rows' :
  currentRows headers i (rows ++ rows') =
  (currentRows headers i rows ++ currentRows headers (i + length rows) rows')%list.
Proof.
  revert i. induction rows as [|row rows IH]; intros i; simpl.
  - by rewrite Nat.add_0_r.
  - rewrite IH. by rewrite Nat.add_succ_r.
Qed.

Section TwoRuns.

Context {engine : Engine}.

Lemma onboardingRows_emails clock clock' headers emailIdx i rows :
  email <$> onboardingRows clock headers emailIdx i rows =
  email <$> onboardingRows clock' headers emailIdx i rows.
Proof.
  revert i. induction rows as [|row rows IH]; intros i; simpl; [done|].
  unfold onboardingRow. destruct (row !! emailIdx) as [cell|]; [|apply IH].
  destruct (Str.nonEmpty cell && Str.nonEmpty (Str.trim cell)); [|apply IH].
  rewrite !fmap_cons. simpl. f_equal. apply IH.
Qed.

Lemma getOnboardingData_emails clock clock' rows data :
  getOnboardingData clock rows = Some data ->
  exists data', getOnboardingData clock' rows = Some data' /\
    email <$> data' = email <$> data.
Proof.
  destruct rows as [|headers dataRows]; simpl.
  - intros [= <-]. by exists [].
  - destruct (emailIndex headers) as [emailIdx|]; [|done]. intros [= <-].
    eexists. split; [done|]. apply onboardingRows_emails.
Qed.

(** X28.  Running twice adds nobody twice.  Let the dashboard have a column
    whose header contains "email" but not "personal" and camelizes to
    "email", with no later column camelizing to "email".  If a first run
    appends its rows to the sheet, a second run over the same onboarding
    sheet and the grown dashboard returns and reports no new entries,
    whatever the clocks of the two runs. *)
Theorem second_sync_adds_nobody clock1 mergeClock1 clock2 mergeClock2
    onboardingRows headers dataRows rows1 stats1 sheetRows j header :
  sync clock1 mergeClock1 onboardingRows (headers :: dataRows) (headers :: dataRows)
    = Some (rows1, stats1) ->
  Forall2 storedAs rows1 sheetRows ->
  headers !! j = Some header -> camelize header = "email" ->
  Str.includes (Str.toLowerCase header) "email" = true ->
  Str.includes (Str.toLowerCase header) "personal" = false ->
  (forall j' h', (j < j')%nat -> headers !! j' = Some h' -> h' <> "" ->
     camelize h' <> "email") ->
  exists rows2 stats2,
    sync clock2 mergeClock2 onboardingRows (headers :: (dataRows ++ sheetRows)%list)
      (headers :: (dataRows ++ sheetRows)%list) = Some (rows2, stats2) /\
    newEntries stats2 = 0.
Proof.
  intros Hs1 Hstored Hj Hc He Hp Hlast.
  destruct (getOnboardingData clock1 onboardingRows) as [data1|] eqn:Hd1;
    [|unfold sync in Hs1; by rewrite Hd1 in Hs1].
  destruct (sync_parts clock1 mergeClock1 onboardingRows (headers :: dataRows)
              (headers :: dataRows) data1 Hd1)
    as (kept1 & added1 & _ & Ha1 & _ & Hsync1).
  rewrite Hs1 in Hsync1. injection Hsync1 as -> _.
  destruct (getOnboardingData_emails clock1 clock2 onboardingRows data1 Hd1)
    as (data2 & Hd2 & Hemails).
  destruct (sync_parts clock2 mergeClock2 onboardingRows
              (headers :: (dataRows ++ sheetRows)%list)
              (headers :: (dataRows ++ sheetRows)%list) data2 Hd2)
    as (kept2 & added2 & _ & Ha2 & _ & Hsync2).
  eexists _, _. split; [exact Hsync2|]. simpl.
  assert (added2 = []) as ->; [|done].
  rewrite newPeople_filter in Ha1, Ha2 by apply getCurrentNetworkingData_emailReadable.
  injection Ha1 as <-. injection Ha2 as <-.
  apply filter_none. intros p Hp2. cbv beta.
  assert (exists q, q ∈ deduplicateOnboardingData data1 /\ email q = email p)
    as (q & Hq & Hqp).
  { apply deduplicate_subset in Hp2.
    assert (email p ∈ email <$> data1) as (p1 & Hp1 & Hin1)%list_elem_of_fmap.
    { rewrite <- Hemails. by apply list_elem_of_fmap_2. }
    destruct (deduplicate_covers data1 p1 Hin1) as (q & Hq & Hqe).
    exists q. split; [done|congruence]. }
  rewrite <- Hqp.
  assert (collides (email q) (currentRows headers 1 (dataRows ++ sheetRows)) = true)
    as Hcol; [|congruence].
  rewrite currentRows_app, collides_app. apply orb_true_iff.
  destruct (collides (email q) (currentRows headers 1 dataRows)) eqn:Hq1; [by left|].
  right.
  assert (buildRow headers (personObj q) ∈
            newRows (headers :: dataRows)
              (filter (fun k => noEmail k = true) kept1 ++ (personObj <$>
                 filter (fun p0 => collides (email p0)
                           (getCurrentNetworkingData (headers :: dataRows)) = false)
                   (deduplicateOnboardingData data1)))%list) as Hrow.
  { unfold newRows. simpl. apply list_elem_of_fmap_2, elem_of_app. right.
    apply list_elem_of_fmap_2, list_elem_of_filter. by split. }
  apply list_elem_of_lookup in Hrow as [n Hn].
  destruct (Forall2_lookup_l _ _ _ _ _ Hstored Hn) as (sheetRow & Hsn & Hst).
  assert (normalizedEmail (email q)) as [Hne Hlow].
  { eapply (Forall_forall (fun p0 => normalizedEmail (email p0))); [|exact Hq].
    by eapply deduplicate_Forall, getOnboardingData_normalizedEmail. }
  apply collides_true.
  exists (currentRow headers (1 + length dataRows + n) sheetRow), (email q).
  split; [|split; [by eapply currentRow_email_back|done]].
  apply list_elem_of_lookup. exists n. by rewrite currentRows_lookup, Hsn.
Qed.

End TwoRuns.

(** ** Closed instances of the further properties *)

(** X1, on the sample onboarding sheet. *)
Lemma findColumnIndex_sound_witness :
  graduationIndex ["Timestamp"; "Email"; "Name"; "Graduation Year"] = Some 3%nat /\
  (3 < length ["Timestamp"; "Email"; "Name"; "Graduation Year"])%nat.
Proof.
  split; [reflexivity|].
  exact (proj1 (findColumnIndex_sound ["Timestamp"; "Email"; "Name"; "Graduation Year"]
                  ["Graduation Year"; "graduationYear"; "Year"; "Graduation"] 3 eq_refl)).
Defined.

(** X6, on the sample onboarding sheet. *)
Lemma getOnboardingData_row_numbers_witness :
  getOnboardingData (engine := sampleEngine) sampleClock sampleOnboardingRows
    = Some sampleOnboarding /\
  StronglySorted Z.lt (rowId <$> sampleOnboarding).
Proof.
  split; [reflexivity|].
  exact (proj1 (proj2 (getOnboardingData_row_numbers (engine := sampleEngine) sampleClock
                         sampleOnboardingRows sampleOnboarding eq_refl))).
Defined.

(** X7, on the sample onboarding sheet, whose second email cell is
    " A@X.com ". *)
Lemma getOnboardingData_fields_trimmed_witness :
  getOnboardingData (engine := sampleEngine) sampleClock sampleOnboardingRows
    = Some sampleOnboarding /\
  Forall (fun p => Forall (fun s => Str.trim s = s) (textFields p) /\
                   email p <> "" /\ Str.toLowerCase (email p) = email p)
    sampleOnboarding.
Proof.
  split; [reflexivity|].
  exact (getOnboardingData_fields_trimmed (engine := sampleEngine) sampleClock
           sampleOnboardingRows sampleOnboarding eq_refl).
Defined.

(** X8, on a row without a status cell whose graduation year is 2022. *)
Lemma alumni_exactly_when_witness :
  exists p,
    onboardingRow (engine := sampleEngine) sampleClock
      ["Timestamp"; "Email"; "Name"; "Graduation Year"] 1 1
      ["2023-01-01"; "a@x.com"; "Alice"; "2022"] = Some p /\
    (currentStatus p = alumni <->
     (exists cell,
        filledCell (statusIndex ["Timestamp"; "Email"; "Name"; "Graduation Year"])
          ["2023-01-01"; "a@x.com"; "Alice"; "2022"] = Some cell /\
        Str.includes (Str.toLowerCase cell) "alumni" = true) \/
     (filledCell (statusIndex ["Timestamp"; "Email"; "Name"; "Graduation Year"])
        ["2023-01-01"; "a@x.com"; "Alice"; "2022"] = None /\
      exists cell year,
        filledCell (graduationIndex ["Timestamp"; "Email"; "Name"; "Graduation Year"])
          ["2023-01-01"; "a@x.com"; "Alice"; "2022"] = Some cell /\
        parseInt cell = Some year /\
        year < getFullYear (Engine := sampleEngine) (sampleClock 1))).
Proof.
  eexists. split; [reflexivity|].
  exact (alumni_exactly_when (engine := sampleEngine) sampleClock
           ["Timestamp"; "Email"; "Name"; "Graduation Year"] 1 1
           ["2023-01-01"; "a@x.com"; "Alice"; "2022"] _ eq_refl).
Defined.

(** X9, on the sample onboarding sheet: both timestamps parse. *)
Lemma getOnboardingData_valid_dates_witness : Forall hasValidDate sampleOnboarding.
Proof.
  apply (getOnboardingData_valid_dates (engine := sampleEngine) sampleClock
           ["Timestamp"; "Email"; "Name"; "Graduation Year"]
           (tail sampleOnboardingRows) sampleOnboarding eq_refl).
  intros row cell Hrow.
  repeat (apply elem_of_cons in Hrow as [->|Hrow]);
    [intros [= <-]; reflexivity..|by apply elem_of_nil in Hrow].
Defined.

(** X11, on the sample onboarding data: the record of June 2024 stands for
    Alice. *)
Lemma deduplicate_keeps_most_recent_witness :
  Forall hasValidDate sampleOnboarding /\
  exists q, q ∈ deduplicateOnboardingData sampleOnboarding /\ email q = "a@x.com".
Proof.
  split; [repeat constructor|].
  destruct (deduplicate_keeps_most_recent sampleOnboarding
              ltac:(repeat constructor) (default (Build_Person "" "" "" "" "" "" "" "" ""
                 "" "" "" "" "" "" "" "" "" "" "" "" "" "" current InvalidDate 0)
                 (head sampleOnboarding)) ltac:(left))
    as (q & Hq & He & _).
  exists q. split; [exact Hq|exact He].
Defined.

(** X12, on the sample onboarding data. *)
Lemma deduplicate_most_recent_first_witness :
  Forall hasValidDate sampleOnboarding /\
  StronglySorted newerOrSame (deduplicateOnboardingData sampleOnboarding).
Proof.
  split; [repeat constructor|].
  exact (deduplicate_most_recent_first sampleOnboarding ltac:(repeat constructor)).
Defined.

(** X13, on two people with different emails. *)
Lemma deduplicate_distinct_emails_witness :
  NoDup (email <$> sampleBadTimestampPeople) /\
  deduplicateOnboardingData sampleBadTimestampPeople ≡ₚ sampleBadTimestampPeople.
Proof.
  assert (NoDup (email <$> sampleBadTimestampPeople)) as Hnd.
  { apply (bool_decide_unpack (NoDup (email <$> sampleBadTimestampPeople))).
    vm_compute. exact I. }
  split; [exact Hnd|]. exact (deduplicate_distinct_emails sampleBadTimestampPeople Hnd).
Defined.

(** X14, on the sample onboarding data. *)
Lemma deduplicate_idempotent_witness :
  Forall hasValidDate sampleOnboarding /\
  deduplicateOnboardingData (deduplicateOnboardingData sampleOnboarding) =
  deduplicateOnboardingData sampleOnboarding.
Proof.
  split; [repeat constructor|].
  exact (deduplicate_idempotent sampleOnboarding ltac:(repeat constructor)).
Defined.

(** X15, on two submissions of the same instant: the one of the earlier row
    is kept. *)
Lemma deduplicate_tie_goes_to_first_witness :
  Forall hasValidDate sampleTie /\
  exists q, deduplicateOnboardingData sampleTie = [q] /\ name q = "First" /\
    head (filter (fun p => email p = email q /\ submissionTime p = Some 1717200000000)
            sampleTie) = Some q.
Proof.
  split; [repeat constructor|].
  eexists. split; [vm_compute; reflexivity|]. split; [reflexivity|].
  match goal with
  | |- _ = Some ?q =>
      refine (deduplicate_tie_goes_to_first sampleTie q 1717200000000
                ltac:(repeat constructor) _ eq_refl)
  end.
  vm_compute. left.
Defined.

(** X17, on the dashboard with two rows, the second one shorter. *)
Lemma getCurrentNetworkingData_same_keys_witness :
  exists bob carol, sampleTwoRowDashboard = [bob; carol] /\ bob.*1 = carol.*1.
Proof.
  eexists _, _. split; [reflexivity|].
  apply (getCurrentNetworkingData_same_keys sampleTwoRowDashboardRows).
  - vm_compute. left.
  - vm_compute. right. left.
Defined.

(** X18, on a sheet with two email columns and a short row: the later column
    is read, and it is missing from the row. *)
Lemma currentRow_reads_last_header_witness :
  getProp "email" (currentRow ["Email"; "Name"; "email"] 1 ["old@x.com"; "Bob"])
  = Some (VStr "").
Proof.
  apply (currentRow_reads_last_header ["Email"; "Name"; "email"] 1 ["old@x.com"; "Bob"]
           2 "email" eq_refl).
  - discriminate.
  - vm_compute. discriminate.
  - vm_compute. discriminate.
  - intros [|[|[|j']]] h' Hlt Hh'; try lia; discriminate.
Defined.

(** X20, on a dashboard whose email column is headed "Email Address". *)
Lemma no_email_property_everyone_is_new_witness :
  newPeople sampleOnboarding
    (getCurrentNetworkingData [["Email Address"; "Name"]; ["a@x.com"; "Alice"]])
  = Some sampleOnboarding.
Proof.
  apply no_email_property_everyone_is_new.
  intros header Hh _.
  repeat (apply elem_of_cons in Hh as [->|Hh]);
    [vm_compute; discriminate..|by apply elem_of_nil in Hh].
Defined.

(** X22, on the dashboard with Bob and a row without email: Carol's row is
    appended again, in front of Alice. *)
Lemma appended_people_are_new_or_without_email_witness :
  exists merged kept added,
    mergeNetworkingData sampleClock (deduplicateOnboardingData sampleOnboarding)
      sampleTwoRowDashboard = Some merged /\
    appendedPeople merged sampleTwoRowDashboard =
      Some (filter (fun k => noEmail k = true) kept ++ (personObj <$> added))%list /\
    length (filter (fun k => noEmail k = true) kept) = 1%nat.
Proof.
  eexists. 
  assert (mergeNetworkingData sampleClock (deduplicateOnboardingData sampleOnboarding)
            sampleTwoRowDashboard = Some _) as Hm by (vm_compute; reflexivity).
  destruct (appended_people_are_new_or_without_email sampleClock _ _ _ Hm)
    as (kept & added & _ & _ & Happ & Hlen & _).
  exists kept, added. split; [exact Hm|]. split; [exact Happ|].
  rewrite Hlen. reflexivity.
Defined.

(** X23, on two records that differ in submission date and row number. *)
Lemma buildRow_writes_known_fields_only_witness :
  exists p p', sampleBadTimestamp = [p; p'] /\ p <> p' /\
    buildRow ["Email"; "Name"; "Location"] (personObj p) =
    buildRow ["Email"; "Name"; "Location"] (personObj p').
Proof.
  eexists _, _. split; [reflexivity|]. split; [discriminate|].
  refine (proj1 (buildRow_writes_known_fields_only ["Email"; "Name"; "Location"]
                   _ _ _)).
  reflexivity.
Defined.

(** X24, on the record kept for Alice and the sample dashboard's headers. *)
Lemma written_email_is_read_back_witness :
  exists p, deduplicateOnboardingData sampleOnboarding = [p] /\
    storedAs (buildRow ["Email"; "Name"; "Notes"] (personObj p))
      ["a@x.com"; "Alice A."] /\
    getProp "email" (currentRow ["Email"; "Name"; "Notes"] 4 ["a@x.com"; "Alice A."])
      = Some (VStr (email p)).
Proof.
  eexists. split; [vm_compute; reflexivity|].
  match goal with
  | |- storedAs (buildRow _ (personObj ?p)) _ /\ _ =>
      assert (storedAs (buildRow ["Email"; "Name"; "Notes"] (personObj p))
                ["a@x.com"; "Alice A."]) as Hst
        by (split; [simpl; lia|];
            intros [|[|[|j']]] cell Hcell; try discriminate;
            injection Hcell as <-; reflexivity);
      split; [exact Hst|];
      refine (written_email_is_read_back ["Email"; "Name"; "Notes"] 4 0 "Email" p
                ["a@x.com"; "Alice A."] eq_refl eq_refl eq_refl eq_refl _ Hst)
  end.
  intros [|[|[|j']]] h' Hlt Hh' _; try lia; try discriminate;
    injection Hh' as <-; vm_compute; discriminate.
Defined.

(** X26, on the sample run: two rows are appended for one new entry, because
    one dashboard row has no email. *)
Lemma sync_report_witness :
  sync (engine := sampleEngine) sampleClock sampleClock sampleOnboardingRows
    sampleTwoRowDashboardRows sampleTwoRowDashboardRows
    = Some (sampleSyncRows, sampleSyncStats) /\
  Z.of_nat (length sampleSyncRows) = newEntries sampleSyncStats +
    Z.of_nat (length (filter (fun person => noEmail person = true)
                        (getCurrentNetworkingData sampleTwoRowDashboardRows))).
Proof.
  assert (sync (engine := sampleEngine) sampleClock sampleClock sampleOnboardingRows
            sampleTwoRowDashboardRows sampleTwoRowDashboardRows
          = Some (sampleSyncRows, sampleSyncStats)) as Hs by (vm_compute; reflexivity).
  split; [exact Hs|].
  destruct (sync_report (engine := sampleEngine) sampleClock sampleClock _ _ _ _ _ Hs)
    as (data & added & _ & _ & _ & _ & _ & _ & _ & _ & _ & _ & Hrows & _).
  exact Hrows.
Defined.

(** X27, on the sample sheets. *)
Lemma preview_predicts_sync_witness :
  preview (engine := sampleEngine) sampleClock sampleOnboardingRows
    sampleTwoRowDashboardRows = Some samplePreviewStats /\
  exists rows stats,
    sync (engine := sampleEngine) sampleClock sampleClock sampleOnboardingRows
      sampleTwoRowDashboardRows sampleTwoRowDashboardRows = Some (rows, stats) /\
    previewNewEntries samplePreviewStats = newEntries stats.
Proof.
  assert (preview (engine := sampleEngine) sampleClock sampleOnboardingRows
            sampleTwoRowDashboardRows = Some samplePreviewStats) as Hp
    by (vm_compute; reflexivity).
  split; [exact Hp|].
  destruct (preview_predicts_sync (engine := sampleEngine) sampleClock sampleClock
              _ _ sampleTwoRowDashboardRows _ Hp)
    as (rows & stats & Hs & _ & _ & _ & Hn & _).
  exists rows, stats. split; [exact Hs|exact Hn].
Defined.

(** X28, on the sample run: after its two rows are appended, a second run
    reports no new entry. *)
Lemma second_sync_adds_nobody_witness :
  Forall2 storedAs sampleSyncRows sampleStoredRows /\
  exists rows2 stats2,
    sync (engine := sampleEngine) sampleClock sampleClock sampleOnboardingRows
      (sampleTwoRowDashboardRows ++ sampleStoredRows)%list
      (sampleTwoRowDashboardRows ++ sampleStoredRows)%list = Some (rows2, stats2) /\
    newEntries stats2 = 0.
Proof.
  assert (Forall2 storedAs sampleSyncRows sampleStoredRows) as Hst.
  { repeat (constructor; [split; [simpl; lia|];
      intros [|[|[|j']]] cell Hcell; try discriminate;
      injection Hcell as <-; reflexivity|]).
    constructor. }
  split; [exact Hst|].
  assert (sync (engine := sampleEngine) sampleClock sampleClock sampleOnboardingRows
            (["Email"; "Name"; "Notes"] :: tail sampleTwoRowDashboardRows)
            (["Email"; "Name"; "Notes"] :: tail sampleTwoRowDashboardRows)
          = Some (sampleSyncRows, sampleSyncStats)) as Hs by (vm_compute; reflexivity).
  refine (second_sync_adds_nobody (engine := sampleEngine) sampleClock sampleClock
            sampleClock sampleClock sampleOnboardingRows ["Email"; "Name"; "Notes"]
            (tail sampleTwoRowDashboardRows) sampleSyncRows sampleSyncStats
            sampleStoredRows 0 "Email" Hs Hst eq_refl eq_refl eq_refl eq_refl _).
  intros [|[|[|j']]] h' Hlt Hh' _; try lia; try discriminate;
    injection Hh' as <-; vm_compute; discriminate.
Defined.
